(** * SMB_COM_NT_TRANSACT (0xA0) command handler

    A shallow embedding of [lib/smb/cmd/nt_transact.js]: the decoding of the
    NT_TRANSACT parameter words, the slicing of the subcommand payload, the
    dispatch to a subcommand handler and the assembly of the response.

    JavaScript numbers are integers of [Z] (every value met here is an
    integer below 2^53), [null] is [None], a [Buffer] is a list of bytes. *)

From Stdlib Require Import ZArith Lia List String.
From Stdlib Require Strings.Byte.
From stdpp Require Import base option list gmap strings.

Local Open Scope Z_scope.

(** ** Buffers (Node's [Buffer])

    [Buffer] belongs to the Node runtime, not to the repository; [slice]
    follows [lib/buffer.js] of Node. *)

Module Buffer.

Definition t := list Byte.byte.

(** [buf.length] *)
Definition len (b : t) : Z := Z.of_nat (length b).

(** [buf[i]] for an index inside the buffer, as a number 0..255 *)
Definition byte_val (b : Byte.byte) : Z := Z.of_N (Byte.to_N b).

(** The byte a number is stored as by [buf[i] = v] for [0 <= v <= 255]. *)
Definition byte_of_Z (v : Z) : Byte.byte :=
  match Byte.of_N (Z.to_N (v mod 256)) with
  | Some b => b
  | None => Byte.x00
  end.

(** [adjustOffset(offset, length)] of Node's [buffer.js]: negative offsets
    count from the end, everything is clamped to [0, length]. *)
Definition adjustOffset (offset length : Z) : Z :=
  if offset =? 0 then 0
  else if offset <? 0 then
    let offset := offset + length in
    if 0 <? offset then offset else 0
  else if offset <? length then offset
  else length.

(** [buf.slice(start, end)]: a view on the bytes from [start] up to, not
    including, [end]; both are clamped to the buffer, and the view is empty
    when [end] does not lie after [start]. *)
Definition slice (b : t) (start end_ : Z) : t :=
  let srcLength := len b in
  let start := adjustOffset start srcLength in
  let end_ := adjustOffset end_ srcLength in
  let newLength := if start <? end_ then end_ - start else 0 in
  take (Z.to_nat newLength) (drop (Z.to_nat start) b).

End Buffer.

(** ** [utils] *)

Module utils.

(** Modelled from the spec: [utils.calculatePadLength] of [lib/utils.js],
    which is not part of the sources at hand. The spec (4.1) has it return
    "the number of filler bytes needed so that [offset + padLength] is a
    multiple of [alignment]", with [0 <= padLength < alignment]. *)
Definition calculatePadLength (offset alignment : Z) : Z :=
  (alignment - offset mod alignment) mod alignment.

(** Modelled from the spec: [utils.EMPTY_BUFFER] of [lib/utils.js]; the
    spec (3, 4.5) has the setup buffer "default to empty". *)
Definition EMPTY_BUFFER : Buffer.t := [].

End utils.

(** ** The [binary] package: [binary.parse(buffer)]

    [binary] is a dependency of the repository ([require('binary')], line 24);
    the definitions follow its [index.js]. The parser keeps a cursor [offset] into the buffer and a store of named
    values. A word of [bytes] bytes is decoded only when that many bytes
    remain at the cursor; otherwise the name is bound to [null] and the cursor
    stays where it is. *)

Module binary.

(** The parser's state is its cursor; a parsing step returns a value and
    the next cursor. *)
Definition Parse (A : Type) : Type := Z -> A * Z.

Definition ret {A} (a : A) : Parse A := fun offset => (a, offset).

Definition bind {A B} (m : Parse A) (k : A -> Parse B) : Parse B :=
  fun offset => let '(a, offset) := m offset in k a offset.

Definition run {A} (m : Parse A) : A := fst (m 0).

(** [decodeLEu(bytes)]: [acc += Math.pow(256, i) * bytes[i]] for
    [i = 0 .. bytes.length - 1]. *)
Fixpoint decodeLEu_loop (i : Z) (acc : Z) (bytes : Buffer.t) : Z :=
  match bytes with
  | [] => acc
  | b :: bytes => decodeLEu_loop (i + 1) (acc + 256 ^ i * Buffer.byte_val b) bytes
  end.

Definition decodeLEu (bytes : Buffer.t) : Z := decodeLEu_loop 0 0 bytes.

(** The reader behind every [wordNNle]: decode [bytes] bytes at the cursor
    if they are there, else yield [null]. *)
Definition word (bytes : Z) (buffer : Buffer.t) : Parse (option Z) :=
  fun offset =>
    if offset + bytes <=? Buffer.len buffer then
      (Some (decodeLEu (Buffer.slice buffer offset (offset + bytes))), offset + bytes)
    else (None, offset).

Definition word8le := word 1.
Definition word16le := word 2.
Definition word32le := word 4.

(** [.skip(bytes)]: the cursor moves on, whatever the buffer's length. *)
Definition skip (bytes : Z) : Parse unit :=
  fun offset => (tt, offset + bytes).

(** [.buffer(name, size)]:
    [buffer.slice(offset, Math.min(buffer.length, offset + size))]. *)
Definition buffer (size : Z) (buffer : Buffer.t) : Parse Buffer.t :=
  fun offset =>
    (Buffer.slice buffer offset (Z.min (Buffer.len buffer) (offset + size)),
     offset + size).

End binary.

Notation "'let*' x := m 'in' k" := (binary.bind m (fun x => k))
  (at level 10, x name, k at level 200, only parsing).

(** ** The NT_TRANSACT request header *)

(** The values [binary.parse(commandParams)] leaves in [parser.vars]; a field
    is [None] when the parser bound it to [null]. *)
Record Vars := {
  maxSetupCount : option Z;
  totalParameterCount : option Z;
  totalDataCount : option Z;
  maxParameterCount : option Z;
  maxDataCount : option Z;
  parameterCount : option Z;
  parameterOffset : option Z;
  dataCount : option Z;
  dataOffset : option Z;
  setupCount : option Z;
  function : option Z;
  setup : Buffer.t
}.

(** [ToNumber] of a field: [null] counts as 0 in [+], [*], [<] and as an
    argument of [slice]. *)
Definition num (v : option Z) : Z := default 0 v.

(** Lines 72-86 of [handle]: the parser chain over [commandParams]. The
    argument [2 * parser.vars['setupCount']] of the last call is evaluated
    after the calls before it have run. *)
Definition parse_params (commandParams : Buffer.t) : Vars :=
  binary.run (
    let* maxSetupCount := binary.word8le commandParams in
    let* _ := binary.skip 2 in
    let* totalParameterCount := binary.word32le commandParams in
    let* totalDataCount := binary.word32le commandParams in
    let* maxParameterCount := binary.word32le commandParams in
    let* maxDataCount := binary.word32le commandParams in
    let* parameterCount := binary.word32le commandParams in
    let* parameterOffset := binary.word32le commandParams in
    let* dataCount := binary.word32le commandParams in
    let* dataOffset := binary.word32le commandParams in
    let* setupCount := binary.word8le commandParams in
    let* function := binary.word16le commandParams in
    let* setup := binary.buffer (2 * num setupCount) commandParams in
    binary.ret {|
      maxSetupCount := maxSetupCount;
      totalParameterCount := totalParameterCount;
      totalDataCount := totalDataCount;
      maxParameterCount := maxParameterCount;
      maxDataCount := maxDataCount;
      parameterCount := parameterCount;
      parameterOffset := parameterOffset;
      dataCount := dataCount;
      dataOffset := dataOffset;
      setupCount := setupCount;
      function := function;
      setup := setup
    |}).

(** ** The [put] package: [put()]

    [put] is a dependency of the repository ([require('put')], line 23); the
    definitions follow its [index.js]. A [put] object collects the words pushed on it; [buffer()] lays them out
    one after the other. *)

Module put.

(** An entry of the [words] array: [{ buffer : buf }] or
    [{ endian, bytes, value }] ([big] is [endian === 'big']). *)
Inductive word :=
| Buf (buffer : Buffer.t)
| Val (big : bool) (bytes : Z) (value : Z).

(** [.put(buf)] *)
Definition put (buf : Buffer.t) : word := Buf buf.
(** [.word8(x)]: [{ bytes : 1, value : x }], no [endian]. *)
Definition word8 (x : Z) : word := Val false 1 x.
(** [.word32le(x)] *)
Definition word32le (x : Z) : word := Val false 4 x.
(** [.pad(bytes)]: [{ endian : 'big', bytes : bytes, value : 0 }] *)
Definition pad (bytes : Z) : word := Val true bytes 0.

(** [ToInt32], applied by [>>] and [&] to their left operand. *)
Definition ToInt32 (v : Z) : Z :=
  let m := v mod 2 ^ 32 in
  if m <? 2 ^ 31 then m else m - 2 ^ 32.

(** The byte written for bit position [i]:
    [Math.floor(word.value / Math.pow(2, i)) & 0xff] when [i >= 32], else
    [(word.value >> i) & 0xff]. *)
Definition byte_at (value i : Z) : Byte.byte :=
  if 32 <=? i then Buffer.byte_of_Z (Z.land (ToInt32 (value / 2 ^ i)) 255)
  else Buffer.byte_of_Z (Z.land (Z.shiftr (ToInt32 value) i) 255).

(** The bit positions the loop of [buffer()] visits: [0, 8, ...] below
    [bytes * 8] for a little-endian word, [(bytes - 1) * 8, ..., 8, 0] for
    a big-endian one. *)
Definition positions (big : bool) (bytes : Z) : list Z :=
  let up := (fun k => 8 * Z.of_nat k) <$> seq 0 (Z.to_nat bytes) in
  if big then reverse up else up.

Definition render (w : word) : Buffer.t :=
  match w with
  | Buf buffer => buffer
  | Val big bytes value => byte_at value <$> positions big bytes
  end.

(** [.buffer()] of a [put] object on which [words] were pushed in order. *)
Definition buffer (words : list word) : Buffer.t :=
  mjoin (render <$> words).

End put.

(** ** [consts] *)

(** The members of [lib/constants.js] that [handle] reads; the file is not
    part of the sources at hand, so they are parameters of the development. *)
Record Consts := {
  STATUS_SUCCESS : Z;
  STATUS_NOT_IMPLEMENTED : Z;
  STATUS_SMB_BAD_COMMAND : Z;
  SMB_MIN_LENGTH : Z;
  NTTRANS_SUBCOMMAND_TO_STRING : gmap Z string;
  COMMAND_TO_STRING : gmap Z string
}.

(** ** Results, messages, events *)

(** Uncaught exceptions. *)
Inductive JsError :=
| ReferenceError (name : string)
| TypeError (message : string).

(** The object a subcommand handler passes to its callback, and the object
    [handle] passes to [cb]: [{ status, params, data }], with an optional
    [setup] on a handler's result. *)
Module Result.
Record t := {
  status : Z;
  params : Buffer.t;
  data : Buffer.t;
  setup : option Buffer.t
}.
End Result.

(** The SMB message object: its raw bytes [msg.buf], and the header fields
    that [_.assign(msg, paramsObj)] copies onto it. *)
Record Msg := {
  buf : Buffer.t;
  vars : option Vars
}.

Definition assign (msg : Msg) (paramsObj : Vars) : Msg :=
  {| buf := buf msg; vars := Some paramsObj |}.

(** ** [handle] *)

Section Handle.

Context {Connection Server : Type}.

(** The arguments of a subcommand handler, but for its callback:
    [handler(msg, msg.subCommandId, subParams, subData,
             msg.parameterOffset, msg.dataOffset, connection, server, _)]. *)
Record HandlerCall := {
  h_msg : Msg;
  h_commandId : option Z;
  h_commandParams : Buffer.t;
  h_commandData : Buffer.t;
  h_commandParamsOffset : option Z;
  h_commandDataOffset : option Z;
  h_connection : Connection;
  h_server : Server
}.

(** A subcommand handler is known by the results it passes to its callback,
    in order: none if it never completes, one if it completes once. *)
Definition Handler : Type := HandlerCall -> list Result.t.

(** What [handle] does to the world around it. *)
Inductive Event :=
| Invoke (subCommand : string) (call : HandlerCall)
    (* [handler(...)] is called *)
| Callback (result : Result.t)
    (* [cb(result)] *)
| NextTick (result : Result.t).
    (* [process.nextTick(function () { cb(result); })] *)

(** The events of a call of [handle], and the exception it ends with, if
    any. *)
Record Outcome := {
  events : list Event;
  thrown : option JsError
}.

Definition returns (events : list Event) : Outcome :=
  {| events := events; thrown := None |}.

Definition throws (e : JsError) : Outcome :=
  {| events := []; thrown := Some e |}.

Variable consts : Consts.

(** The module's [subCmdHandlers], filled once by [loadSubCmdHandlers]: the
    names assigned to the object, with their values. A lookup that finds no
    assigned name stands for [undefined]; this is what the code reads unless
    the name is one the object inherits (see [unregistered] below). *)
Variable subCmdHandlers : gmap string Handler.

(** Lines 90-91: [consts.NTTRANS_SUBCOMMAND_TO_STRING[msg.subCommandId]],
    kept when it is truthy (a string that is not empty). *)
Definition subCommand_of (subCommandId : option Z) : option string :=
  name ← subCommandId ≫= (NTTRANS_SUBCOMMAND_TO_STRING consts !!.);
  if decide (name = EmptyString) then None else Some name.

(** Lines 97-105: the slices taken from [commandData]; the last component
    is the final value of [off]. *)
Definition decode_data (commandData : Buffer.t) (commandDataOffset : Z) (msg : Vars)
  : Buffer.t * Buffer.t * Z :=
  let off := utils.calculatePadLength commandDataOffset 4 in
  let NT_Trans_Parameters := Buffer.slice commandData off (num (parameterCount msg)) in
  let off := off + num (parameterCount msg) in
  let off := off + utils.calculatePadLength off 4 in
  let NT_Trans_Data := Buffer.slice commandData off (num (dataCount msg)) in
  let off := off + num (dataCount msg) in
  (NT_Trans_Parameters, NT_Trans_Data, off).

(** Lines 143-157: lengths, offsets and paddings of the response. *)
Record Layout := {
  paramsLength : Z;
  l_dataOffset : Z;
  pad1 : Z;
  subParamsOffset : Z;
  pad2 : Z;
  subDataOffset : Z;
  l_off : Z
}.

Definition layout (subParams subData setup : Buffer.t) : Layout :=
  let paramsLength := 36 + Buffer.len setup in
  let dataOffset := SMB_MIN_LENGTH consts + paramsLength in
  let off := dataOffset in
  let pad1 := utils.calculatePadLength off 4 in
  let off := off + pad1 in
  let subParamsOffset := off in
  let off := off + Buffer.len subParams in
  let pad2 := utils.calculatePadLength off 4 in
  let off := off + pad2 in
  let subDataOffset := off in
  let off := off + Buffer.len subData in
  {| paramsLength := paramsLength; l_dataOffset := dataOffset;
     pad1 := pad1; subParamsOffset := subParamsOffset;
     pad2 := pad2; subDataOffset := subDataOffset; l_off := off |}.

(** Lines 137-187: the response built from a successful handler result. *)
Definition build_response (result : Result.t) : Result.t :=
  let subParams := Result.params result in
  let subData := Result.data result in
  let setup := default utils.EMPTY_BUFFER (Result.setup result) in
  let l := layout subParams subData setup in
  let params := put.buffer [
    put.pad 3;
    put.word32le (Buffer.len subParams);
    put.word32le (Buffer.len subData);
    put.word32le (Buffer.len subParams);
    put.word32le (subParamsOffset l);
    put.word32le 0;
    put.word32le (Buffer.len subData);
    put.word32le (subDataOffset l);
    put.word32le 0;
    put.word8 (Buffer.len setup);
    put.put setup ] in
  let data := put.buffer [
    put.pad (pad1 l);
    put.put subParams;
    put.pad (pad2 l);
    put.put subData ] in
  {| Result.status := STATUS_SUCCESS consts;
     Result.params := params;
     Result.data := data;
     Result.setup := None |}.

(** Lines 129-189: the callback given to the handler, as the result it
    passes to [cb]. On a failure the handler's own object is passed on,
    with [params] and [data] overwritten. *)
Definition handler_callback (commandParams commandData : Buffer.t)
    (result : Result.t) : Result.t :=
  if negb (Result.status result =? STATUS_SUCCESS consts) then
    {| Result.status := Result.status result;
       Result.params := commandParams;
       Result.data := commandData;
       Result.setup := Result.setup result |}
  else build_response result.

(** Lines 115-119 and 192-196. *)
Definition not_implemented (commandParams commandData : Buffer.t) : Result.t :=
  {| Result.status := STATUS_NOT_IMPLEMENTED consts;
     Result.params := commandParams;
     Result.data := commandData;
     Result.setup := None |}.

Definition handle (msg : Msg) (commandId : Z) (commandParams commandData : Buffer.t)
    (commandParamsOffset commandDataOffset : Z)
    (connection : Connection) (server : Server) : Outcome :=
  (* decode params *)
  let paramsObj := parse_params commandParams in
  let msg := assign msg paramsObj in
  let subCommandId := function paramsObj in
  match subCommand_of subCommandId with
  | None =>
    (* line 92: [self] is bound nowhere in the module, and the call ends
       here; [cb] is not reached (nor is line 93, whose [callback] is not
       bound either) *)
    throws (ReferenceError "self")
  | Some subCommand =>
    (* decode data *)
    let '(NT_Trans_Parameters, NT_Trans_Data, off) :=
      decode_data commandData commandDataOffset paramsObj in
    let subParams := Buffer.slice (buf msg) (num (parameterOffset paramsObj))
                       (num (parameterOffset paramsObj) + num (parameterCount paramsObj)) in
    let subData := Buffer.slice (buf msg) (num (dataOffset paramsObj))
                     (num (dataOffset paramsObj) + num (dataCount paramsObj)) in
    (* the arguments of [logger.debug]:
       [consts.COMMAND_TO_STRING[commandId].toUpperCase()] *)
    match COMMAND_TO_STRING consts !! commandId with
    | None => throws (TypeError "Cannot read property 'toUpperCase' of undefined")
    | Some _ =>
      if (num (parameterCount paramsObj) <? num (totalParameterCount paramsObj))
         || (num (dataCount paramsObj) <? num (totalDataCount paramsObj))
      then
        returns [NextTick (not_implemented commandParams commandData)]
      else
        (* invoke subcommand handler *)
        match (subCmdHandlers !! subCommand : option Handler) with
        | Some handler =>
          let call := {|
            h_msg := msg;
            h_commandId := subCommandId;
            h_commandParams := subParams;
            h_commandData := subData;
            h_commandParamsOffset := parameterOffset paramsObj;
            h_commandDataOffset := dataOffset paramsObj;
            h_connection := connection;
            h_server := server |} in
          returns (Invoke subCommand call
                   :: (Callback ∘ handler_callback commandParams commandData <$> handler call))
        | None =>
          returns [Callback (not_implemented commandParams commandData)]
        end
    end
  end.

(** The results [cb] is called with, now or on the next tick. *)
Definition cb_results (o : Outcome) : list Result.t :=
  omap (fun e => match e with
                 | Callback r | NextTick r => Some r
                 | Invoke _ _ => None
                 end) (events o).

(** The handler calls made. *)
Definition invocations (o : Outcome) : list (string * HandlerCall) :=
  omap (fun e => match e with
                 | Invoke s c => Some (s, c)
                 | _ => None
                 end) (events o).

(** The request is chunked: line 112. *)
Definition chunked (v : Vars) : bool :=
  (num (parameterCount v) <? num (totalParameterCount v))
  || (num (dataCount v) <? num (totalDataCount v)).

(** The call [handle] makes to a handler: lines 107-108 and 129. *)
Definition call_of (msg : Msg) (commandParams : Buffer.t)
    (connection : Connection) (server : Server) : HandlerCall :=
  let v := parse_params commandParams in
  {| h_msg := assign msg v;
     h_commandId := function v;
     h_commandParams :=
       Buffer.slice (buf msg) (num (parameterOffset v))
         (num (parameterOffset v) + num (parameterCount v));
     h_commandData :=
       Buffer.slice (buf msg) (num (dataOffset v))
         (num (dataOffset v) + num (dataCount v));
     h_commandParamsOffset := parameterOffset v;
     h_commandDataOffset := dataOffset v;
     h_connection := connection;
     h_server := server |}.

End Handle.

(** ** Reference encodings

    The wire encodings the statements below are phrased with; they are not
    part of [handle]. *)

(** The little-endian encoding of [v] on [n] bytes. *)
Definition le_bytes (n : nat) (v : Z) : Buffer.t :=
  (fun k => Buffer.byte_of_Z (v / 256 ^ Z.of_nat k)) <$> seq 0 n.

Definition u8 (v : Z) : Buffer.t := le_bytes 1 v.
Definition u16le (v : Z) : Buffer.t := le_bytes 2 v.
Definition u32le (v : Z) : Buffer.t := le_bytes 4 v.

(** [n] filler bytes. *)
Definition filler (n : Z) : Buffer.t := replicate (Z.to_nat n) Byte.x00.

(** The parameter words of an NT_TRANSACT request with the given fields. *)
Definition request_params (maxSetupCount totalParameterCount totalDataCount
    maxParameterCount maxDataCount parameterCount parameterOffset
    dataCount dataOffset setupCount function : Z) (setup : Buffer.t) : Buffer.t :=
  u8 maxSetupCount ++ filler 2
  ++ u32le totalParameterCount ++ u32le totalDataCount
  ++ u32le maxParameterCount ++ u32le maxDataCount
  ++ u32le parameterCount ++ u32le parameterOffset
  ++ u32le dataCount ++ u32le dataOffset
  ++ u8 setupCount ++ u16le function ++ setup.

(** Every fixed field of the header was decoded (none is [null]). *)
Definition header_complete (v : Vars) : bool :=
  bool_decide (is_Some (maxSetupCount v))
  && bool_decide (is_Some (totalParameterCount v))
  && bool_decide (is_Some (totalDataCount v))
  && bool_decide (is_Some (maxParameterCount v))
  && bool_decide (is_Some (maxDataCount v))
  && bool_decide (is_Some (parameterCount v))
  && bool_decide (is_Some (parameterOffset v))
  && bool_decide (is_Some (dataCount v))
  && bool_decide (is_Some (dataOffset v))
  && bool_decide (is_Some (setupCount v))
  && bool_decide (is_Some (function v)).

(** ** Notions used in the statements *)

(** The bytes of a field of [bytes] bytes at [offset], decoded. *)
Definition field_at (buffer : Buffer.t) (offset bytes : Z) : Z :=
  binary.decodeLEu (take (Z.to_nat bytes) (drop (Z.to_nat offset) buffer)).

(** The decoded fields are never negative. *)
Definition vars_nonneg (v : Vars) : Prop :=
  0 <= num (totalParameterCount v) /\ 0 <= num (totalDataCount v)
  /\ 0 <= num (parameterCount v) /\ 0 <= num (parameterOffset v)
  /\ 0 <= num (dataCount v) /\ 0 <= num (dataOffset v)
  /\ 0 <= num (setupCount v).

(** A decoded field is the value of [bytes] bytes that all lie inside the
    buffer. *)
Definition read_inside (buffer : Buffer.t) (bytes : Z) (r : option Z) : Prop :=
  forall v, r = Some v ->
    exists offset, 0 <= offset /\ offset + bytes <= Buffer.len buffer
                   /\ v = field_at buffer offset bytes.

Definition vars_inside (buffer : Buffer.t) (v : Vars) : Prop :=
  read_inside buffer 1 (maxSetupCount v)
  /\ read_inside buffer 4 (totalParameterCount v)
  /\ read_inside buffer 4 (totalDataCount v)
  /\ read_inside buffer 4 (maxParameterCount v)
  /\ read_inside buffer 4 (maxDataCount v)
  /\ read_inside buffer 4 (parameterCount v)
  /\ read_inside buffer 4 (parameterOffset v)
  /\ read_inside buffer 4 (dataCount v)
  /\ read_inside buffer 4 (dataOffset v)
  /\ read_inside buffer 1 (setupCount v)
  /\ read_inside buffer 2 (function v)
  /\ exists (offset n : nat), setup v = take n (drop offset buffer).

(** The bytes of [buffer] from [offset] on, [count] of them at most. *)
Definition clamped (buffer : Buffer.t) (offset count : Z) : Buffer.t :=
  take (Z.to_nat (Z.min (offset + count) (Buffer.len buffer))
        - Z.to_nat (Z.min offset (Buffer.len buffer)))
       (drop (Z.to_nat (Z.min offset (Buffer.len buffer))) buffer).

(** The fixed part of the response parameters: everything before the
    SetupCount byte. *)
Definition response_fixed (consts : Consts) (p d s : Buffer.t) : Buffer.t :=
  let l := layout consts p d s in
  filler 3
  ++ u32le (Buffer.len p) ++ u32le (Buffer.len d) ++ u32le (Buffer.len p)
  ++ u32le (subParamsOffset l) ++ u32le 0
  ++ u32le (Buffer.len d) ++ u32le (subDataOffset l) ++ u32le 0.

(** ** A sample server

    Constants with the values of [MS-CIFS], three registered handlers, and a
    few requests; they instantiate the theorems below. *)

Module Sample.

Definition consts : Consts := {|
  STATUS_SUCCESS := 0;
  STATUS_NOT_IMPLEMENTED := 0xC0000002;
  STATUS_SMB_BAD_COMMAND := 0x00160002;
  SMB_MIN_LENGTH := 35;
  NTTRANS_SUBCOMMAND_TO_STRING :=
    {[ 1 := "create"%string; 2 := "ioctl"%string;
       3 := "set_security_desc"%string; 4 := "notify_change"%string;
       5 := "rename"%string; 6 := "query_security_desc"%string ]};
  COMMAND_TO_STRING := {[ 0xA0 := "nt_transact"%string ]}
|}.

Definition STATUS_ACCESS_DENIED : Z := 0xC0000022.

(** Completes once, successfully, with four parameter bytes. *)
Definition ioctl : @Handler unit unit := fun _ =>
  [ {| Result.status := 0;
       Result.params := [Byte.x01; Byte.x02; Byte.x03; Byte.x04];
       Result.data := [];
       Result.setup := None |} ].

(** Completes once, successfully, with a setup buffer of 300 bytes. *)
Definition create : @Handler unit unit := fun _ =>
  [ {| Result.status := 0;
       Result.params := [Byte.x01];
       Result.data := [Byte.x02; Byte.x03];
       Result.setup := Some (replicate 300 Byte.xff) |} ].

(** Completes once, with a failure and buffers of its own. *)
Definition notify_change : @Handler unit unit := fun _ =>
  [ {| Result.status := STATUS_ACCESS_DENIED;
       Result.params := [Byte.xaa];
       Result.data := [Byte.xbb];
       Result.setup := None |} ].

Definition subCmdHandlers : gmap string (@Handler unit unit) :=
  {[ "ioctl"%string := ioctl; "create"%string := create;
     "notify_change"%string := notify_change ]}.

(** A message of 16 bytes. *)
Definition msg : Msg :=
  {| buf := Buffer.byte_of_Z <$> [0; 1; 2; 3; 4; 5; 6; 7; 8; 9; 10; 11; 12; 13; 14; 15];
     vars := None |}.

Definition commandData : Buffer.t :=
  Buffer.byte_of_Z <$> [0; 0; 0; 4; 5; 6; 7; 0; 8; 9; 10; 11].

(** A complete request for [function]: four parameter bytes at offset 4,
    four data bytes at offset 8. *)
Definition request (function : Z) : Buffer.t :=
  request_params 0 4 4 0 0 4 4 4 8 0 function [].

(** The same with [parameterOffset = 1000], beyond the message. *)
Definition request_far : Buffer.t :=
  request_params 0 4 4 0 0 4 1000 4 8 0 2 [].

(** [parameterCount = 10] of [totalParameterCount = 20]. *)
Definition request_chunked (function : Z) : Buffer.t :=
  request_params 0 20 0 0 0 10 4 0 8 0 function [].

(** Six bytes only: [maxSetupCount], two reserved bytes, then
    [setupCount = 0] and [function = 2] are what the parser finds. *)
Definition request_short : Buffer.t :=
  Buffer.byte_of_Z <$> [0; 0; 0; 0; 2; 0].

Definition handle := handle consts subCmdHandlers msg 0xA0.

End Sample.

(** ** The handler registry: [loadSubCmdHandlers] *)

(** JavaScript strings, as the sequences of their code units. *)
Module JsString.

(** The index an argument [i] of [substr] or [slice] stands for in a string
    of [len] units: counted from the end when negative, clamped to the
    string. *)
Definition index (len i : Z) : nat :=
  Z.to_nat (if i <? 0 then Z.max (len + i) 0 else Z.min i len).

(** [s.substr(start)]: the units from [start] to the end. *)
Definition substr (s : string) (start : Z) : string :=
  let len := Z.of_nat (String.length s) in
  string_of_list_ascii (drop (index len start) (list_ascii_of_string s)).

(** [s.slice(start, end)]: the units from [start] up to, not including,
    [end]. *)
Definition slice (s : string) (start end_ : Z) : string :=
  let len := Z.of_nat (String.length s) in
  let from := index len start in
  let to := index len end_ in
  string_of_list_ascii (take (to - from) (drop from (list_ascii_of_string s))).

End JsString.

Section Registry.

Context {Connection Server : Type}.

(** An entry of [fs.readdirSync(p)]: its name, and what
    [fs.statSync(path.resolve(p, f)).isDirectory()] answers for it. *)
Record Dirent := {
  d_name : string;
  d_isDirectory : bool
}.

(** The entry is a file, not a directory, named [k.js]. *)
Definition registers (k : string) (entry : Dirent) : Prop :=
  d_isDirectory entry = false /\ d_name entry = (k ++ ".js")%string.

(** [require(path.resolve(p, f))], by the name [f] it is asked for; loading
    a module is taken to succeed. *)
Variable require : string -> @Handler Connection Server.

(** One turn of the loop of lines 36-46 on the registry built so far. *)
Definition load_entry (subCmdHandlers : gmap string (@Handler Connection Server))
    (entry : Dirent) : gmap string (@Handler Connection Server) :=
  let f := d_name entry in
  if d_isDirectory entry then subCmdHandlers
  else if decide (JsString.substr f (-3) = ".js"%string) then
    let f := JsString.slice f 0 (-3) in
    <[f := require f]> subCmdHandlers
  else subCmdHandlers.

(** Lines 31-48: [subCmdHandlers] starts empty and [loadSubCmdHandlers()]
    runs once, over the entries of the [nttrans] directory in the order
    [readdirSync] lists them. The object is read as the map of the names
    assigned to it. *)
Definition loadSubCmdHandlers (files : list Dirent)
  : gmap string (@Handler Connection Server) :=
  foldl load_entry ∅ files.

End Registry.

(** A sample [nttrans] directory: three handler files, a subdirectory and a
    file that is no script. *)
Module SampleDir.

Definition files : list Dirent := [
  {| d_name := "create.js"; d_isDirectory := false |};
  {| d_name := "ioctl.js"; d_isDirectory := false |};
  {| d_name := "lib.js"; d_isDirectory := true |};
  {| d_name := "notes.txt"; d_isDirectory := false |};
  {| d_name := "notify_change.js"; d_isDirectory := false |}
]%string.

Definition require (f : string) : @Handler unit unit :=
  if decide (f = "create"%string) then Sample.create
  else if decide (f = "ioctl"%string) then Sample.ioctl
  else Sample.notify_change.

End SampleDir.

(** ** Names an object inherits

    [subCmdHandlers] is an object literal: reading [subCmdHandlers[name]]
    finds what was assigned under [name] and, failing that, what the object
    inherits. The maps above hold the assigned names only. *)

(** The property names of [Object.prototype]. *)
Definition Object_prototype_names : list string := [
  "constructor"; "__defineGetter__"; "__defineSetter__"; "hasOwnProperty";
  "__lookupGetter__"; "__lookupSetter__"; "isPrototypeOf";
  "propertyIsEnumerable"; "toString"; "valueOf"; "__proto__"; "toLocaleString"
]%string.

(** [subCmdHandlers[name]] is [undefined]: nothing was assigned under
    [name], [name] is no name of [Object.prototype], and no assignment to
    [__proto__] gave the object another prototype. *)
Definition unregistered {Connection Server : Type}
    (subCmdHandlers : gmap string (@Handler Connection Server)) (name : string) : Prop :=
  subCmdHandlers !! name = None
  /\ (name ∉ Object_prototype_names)
  /\ subCmdHandlers !! "__proto__"%string = None.

(** The lookup of the resolved subcommand name either finds an assigned
    handler or finds nothing at all: the name is not one the registry only
    inherits. *)
Definition lookup_settled {Connection Server : Type} (consts : Consts)
    (subCmdHandlers : gmap string (@Handler Connection Server))
    (commandParams : Buffer.t) : Prop :=
  forall name,
    subCommand_of consts (function (parse_params commandParams)) = Some name ->
    is_Some (subCmdHandlers !! name) \/ unregistered subCmdHandlers name.

(** * Properties *)

(** ** Bytes and buffers *)

Lemma byte_val_range (b : Byte.byte) : 0 <= Buffer.byte_val b < 256.
Proof.
  unfold Buffer.byte_val. pose proof (Byte.to_N_bounded b). lia.
Qed.

Lemma byte_val_of_Z (v : Z) : Buffer.byte_val (Buffer.byte_of_Z v) = v mod 256.
Proof.
  unfold Buffer.byte_val, Buffer.byte_of_Z.
  pose proof (Z.mod_pos_bound v 256 ltac:(lia)) as Hv.
  destruct (Byte.of_N (Z.to_N (v mod 256))) as [b|] eqn:Hb.
  - apply Byte.to_of_N in Hb. rewrite Hb. lia.
  - apply Byte.of_N_None_iff in Hb. lia.
Qed.

Lemma byte_of_Z_val (b : Byte.byte) : Buffer.byte_of_Z (Buffer.byte_val b) = b.
Proof.
  unfold Buffer.byte_of_Z. rewrite Z.mod_small by apply byte_val_range.
  unfold Buffer.byte_val. rewrite N2Z.id, Byte.of_to_N. reflexivity.
Qed.

Lemma byte_of_Z_mod (v w : Z) :
  v mod 256 = w mod 256 -> Buffer.byte_of_Z v = Buffer.byte_of_Z w.
Proof. unfold Buffer.byte_of_Z. intros ->. reflexivity. Qed.

Lemma len_nonneg (b : Buffer.t) : 0 <= Buffer.len b.
Proof. unfold Buffer.len. lia. Qed.

Lemma adjustOffset_nonneg (offset length : Z) :
  0 <= offset -> 0 <= length ->
  Buffer.adjustOffset offset length = Z.min offset length.
Proof.
  intros Ho Hl. unfold Buffer.adjustOffset.
  destruct (Z.eqb_spec offset 0); [lia|].
  destruct (Z.ltb_spec offset 0); [lia|].
  destruct (Z.ltb_spec offset length); lia.
Qed.

Lemma adjustOffset_range (offset length : Z) :
  0 <= length -> 0 <= Buffer.adjustOffset offset length <= length.
Proof.
  intros Hl. unfold Buffer.adjustOffset.
  destruct (Z.eqb_spec offset 0); [lia|].
  destruct (Z.ltb_spec offset 0).
  - destruct (Z.ltb_spec 0 (offset + length)); lia.
  - destruct (Z.ltb_spec offset length); lia.
Qed.

(** A slice never holds more than the bytes between its clamped ends. *)
Lemma slice_len (b : Buffer.t) (start end_ : Z) :
  Buffer.len (Buffer.slice b start end_)
  = Z.max 0 (Buffer.adjustOffset end_ (Buffer.len b)
             - Buffer.adjustOffset start (Buffer.len b)).
Proof.
  unfold Buffer.slice.
  pose proof (adjustOffset_range start (Buffer.len b) (len_nonneg b)) as Hs.
  pose proof (adjustOffset_range end_ (Buffer.len b) (len_nonneg b)) as He.
  set (s := Buffer.adjustOffset start _) in *.
  set (e := Buffer.adjustOffset end_ _) in *.
  unfold Buffer.len in *. rewrite length_take, length_drop.
  destruct (Z.ltb_spec s e); lia.
Qed.

(** Every byte of a slice is a byte of the buffer, at an index inside it. *)
Lemma slice_lookup (b : Buffer.t) (start end_ : Z) (i : nat) (x : Byte.byte) :
  Buffer.slice b start end_ !! i = Some x ->
  b !! (Z.to_nat (Buffer.adjustOffset start (Buffer.len b)) + i)%nat = Some x
  /\ Buffer.adjustOffset start (Buffer.len b) + Z.of_nat i < Buffer.len b.
Proof.
  unfold Buffer.slice. intros H.
  pose proof (adjustOffset_range start (Buffer.len b) (len_nonneg b)) as Hs.
  apply lookup_take_Some in H as [H _].
  rewrite lookup_drop in H. split; [exact H|].
  apply lookup_lt_Some in H. unfold Buffer.len in *. lia.
Qed.

(** A slice that lies inside the buffer is the bytes asked for. *)
Lemma slice_inside (b : Buffer.t) (start n : Z) :
  0 <= start -> 0 <= n -> start + n <= Buffer.len b ->
  Buffer.slice b start (start + n) = take (Z.to_nat n) (drop (Z.to_nat start) b).
Proof.
  intros Hs Hn Hlen. unfold Buffer.slice.
  rewrite !adjustOffset_nonneg by (try apply len_nonneg; lia).
  rewrite !Z.min_l by lia.
  destruct (Z.ltb_spec start (start + n)).
  - f_equal. lia.
  - replace n with 0 by lia. reflexivity.
Qed.

Lemma slice_inside_len (b : Buffer.t) (start n : Z) :
  0 <= start -> 0 <= n -> start + n <= Buffer.len b ->
  Buffer.len (Buffer.slice b start (start + n)) = n.
Proof.
  intros Hs Hn Hlen. rewrite slice_len.
  rewrite !adjustOffset_nonneg by (try apply len_nonneg; lia). lia.
Qed.

(** A slice with ends that are not negative, as a clamped range. *)
Lemma slice_clamped (b : Buffer.t) (start end_ : Z) :
  0 <= start -> 0 <= end_ ->
  Buffer.slice b start end_
  = take (Z.to_nat (Z.min end_ (Buffer.len b)) - Z.to_nat (Z.min start (Buffer.len b)))
         (drop (Z.to_nat (Z.min start (Buffer.len b))) b).
Proof.
  intros Hs He. unfold Buffer.slice.
  rewrite !adjustOffset_nonneg by (try apply len_nonneg; lia).
  destruct (Z.ltb_spec (Z.min start (Buffer.len b)) (Z.min end_ (Buffer.len b))).
  - f_equal. lia.
  - f_equal. lia.
Qed.

(** ** The padding law *)

Lemma calculatePadLength_range (offset : Z) :
  0 <= utils.calculatePadLength offset 4 < 4.
Proof. unfold utils.calculatePadLength. apply Z.mod_pos_bound. lia. Qed.

Lemma calculatePadLength_aligned (offset : Z) :
  (offset + utils.calculatePadLength offset 4) mod 4 = 0.
Proof.
  unfold utils.calculatePadLength.
  rewrite Zplus_mod_idemp_r.
  replace (offset + (4 - offset mod 4)) with (offset - offset mod 4 + 1 * 4) by lia.
  rewrite Z_mod_plus_full.
  rewrite Zminus_mod_idemp_r. rewrite Z.sub_diag. reflexivity.
Qed.

(** ** Little-endian words *)

Lemma decodeLEu_loop_acc (bytes : Buffer.t) (i acc : Z) :
  0 <= i ->
  binary.decodeLEu_loop i acc bytes = acc + 256 ^ i * binary.decodeLEu bytes.
Proof.
  unfold binary.decodeLEu.
  revert i acc. induction bytes as [|b bytes IH]; intros i acc Hi; cbn [binary.decodeLEu_loop].
  - lia.
  - rewrite (IH (i + 1)), (IH (0 + 1)) by lia.
    rewrite Z.pow_add_r by lia. change (256 ^ 0) with 1. lia.
Qed.

Lemma decodeLEu_cons (b : Byte.byte) (bytes : Buffer.t) :
  binary.decodeLEu (b :: bytes) = Buffer.byte_val b + 256 * binary.decodeLEu bytes.
Proof.
  unfold binary.decodeLEu at 1. cbn [binary.decodeLEu_loop].
  rewrite decodeLEu_loop_acc by lia. change (256 ^ 0) with 1. lia.
Qed.

Lemma decodeLEu_range (bytes : Buffer.t) :
  0 <= binary.decodeLEu bytes < 256 ^ Buffer.len bytes.
Proof.
  induction bytes as [|b bytes IH].
  - change (0 <= 0 < 1). lia.
  - rewrite decodeLEu_cons. pose proof (byte_val_range b).
    unfold Buffer.len in *. rewrite length_cons, Nat2Z.inj_succ, Z.pow_succ_r by lia. lia.
Qed.

Lemma le_bytes_succ (n : nat) (v : Z) :
  le_bytes (S n) v = Buffer.byte_of_Z v :: le_bytes n (v / 256).
Proof.
  unfold le_bytes. cbn [seq fmap list_fmap]. f_equal.
  - f_equal. change (256 ^ Z.of_nat 0) with 1. apply Z.div_1_r.
  - rewrite <- seq_shift, <- list_fmap_compose. apply list_fmap_ext.
    intros _ k _. cbn. f_equal.
    rewrite Nat2Z.inj_succ, Z.pow_succ_r by lia.
    rewrite Z.div_div by lia. reflexivity.
Qed.

(** The reference encoding is read back by [decodeLEu]. *)
Lemma decodeLEu_le_bytes (n : nat) (v : Z) :
  binary.decodeLEu (le_bytes n v) = v mod 256 ^ Z.of_nat n.
Proof.
  revert v. induction n as [|n IH]; intros v.
  - cbn. symmetry. apply Z.mod_1_r.
  - rewrite le_bytes_succ, decodeLEu_cons, byte_val_of_Z, IH.
    rewrite Nat2Z.inj_succ, Z.pow_succ_r by lia.
    rewrite Z.rem_mul_r by lia. lia.
Qed.

Lemma decodeLEu_u32le (v : Z) :
  0 <= v < 2 ^ 32 -> binary.decodeLEu (u32le v) = v.
Proof.
  intros Hv. unfold u32le. rewrite decodeLEu_le_bytes.
  apply Z.mod_small. change (256 ^ Z.of_nat 4) with (2 ^ 32). lia.
Qed.

Lemma u8_byte (v : Z) : u8 v = [Buffer.byte_of_Z v].
Proof. unfold u8. rewrite le_bytes_succ. reflexivity. Qed.

Lemma le_bytes_length (n : nat) (v : Z) : length (le_bytes n v) = n.
Proof. unfold le_bytes. rewrite length_fmap. apply length_seq. Qed.

(** ** The parser *)

(** A word is decoded only from bytes that are all inside the buffer, and
    only then does the cursor move. *)
Lemma word_Some (bytes : Z) (buffer : Buffer.t) (offset offset' v : Z) :
  0 <= offset -> 0 <= bytes ->
  binary.word bytes buffer offset = (Some v, offset') ->
  offset' = offset + bytes /\ offset + bytes <= Buffer.len buffer
  /\ v = binary.decodeLEu (take (Z.to_nat bytes) (drop (Z.to_nat offset) buffer))
  /\ 0 <= v < 256 ^ bytes.
Proof.
  intros Ho Hb. unfold binary.word.
  destruct (Z.leb_spec (offset + bytes) (Buffer.len buffer)) as [Hle|Hgt]; [|discriminate].
  intros [= <- <-]. rewrite slice_inside by lia.
  repeat split; try lia.
  - apply decodeLEu_range.
  - rewrite <- (slice_inside buffer offset bytes) by lia.
    pose proof (decodeLEu_range (Buffer.slice buffer offset (offset + bytes))) as H.
    rewrite slice_inside_len in H by lia. lia.
Qed.

Lemma word_None (bytes : Z) (buffer : Buffer.t) (offset offset' : Z) :
  binary.word bytes buffer offset = (None, offset') ->
  offset' = offset /\ Buffer.len buffer < offset + bytes.
Proof.
  unfold binary.word.
  destruct (Z.leb_spec (offset + bytes) (Buffer.len buffer)); [discriminate|].
  intros [= <-]. lia.
Qed.

Lemma word_offset (bytes : Z) (buffer : Buffer.t) (offset offset' : Z) (r : option Z) :
  0 <= offset -> 0 <= bytes ->
  binary.word bytes buffer offset = (r, offset') ->
  0 <= offset' /\ 0 <= num r.
Proof.
  intros Ho Hb H. destruct r as [v|].
  - apply word_Some in H as (-> & _ & _ & Hv); cbn; lia.
  - apply word_None in H as [-> _]. cbn. lia.
Qed.

(** The parser chain of [parse_params], one reader after the other: the
    eleven readers leave their results and cursors in the context. *)
Ltac parse_chain buffer :=
  unfold parse_params, binary.run, binary.bind, binary.word8le,
    binary.word16le, binary.word32le, binary.skip, binary.buffer, binary.ret;
  repeat match goal with
  | |- context [binary.word ?k buffer ?o] =>
    let r := fresh "r" in
    let o' := fresh "o" in
    let E := fresh "E" in
    destruct (binary.word k buffer o) as [r o'] eqn:E
  end;
  cbn [fst snd].

Ltac word_facts :=
  repeat match goal with
  | E : binary.word _ _ _ = (Some _, _) |- _ =>
    apply word_Some in E as (? & ? & ? & ?); [subst | lia | lia]
  | E : binary.word _ _ _ = (None, _) |- _ =>
    apply word_None in E as (? & ?); subst
  end.

Lemma parse_params_nonneg (commandParams : Buffer.t) :
  vars_nonneg (parse_params commandParams).
Proof.
  parse_chain commandParams. unfold vars_nonneg. cbn.
  repeat match goal with
  | E : binary.word _ _ ?o = (_, _) |- _ =>
    apply word_offset in E as [? ?]; [| lia | lia]
  end.
  repeat split; assumption.
Qed.

(** A header with all its fixed fields takes 38 bytes. *)
Lemma parse_params_complete_len (commandParams : Buffer.t) :
  header_complete (parse_params commandParams) = true ->
  38 <= Buffer.len commandParams.
Proof.
  parse_chain commandParams. unfold header_complete. cbn.
  repeat match goal with
  | r : option Z |- _ => destruct r; cbn; [| discriminate]
  end.
  intros _. word_facts. lia.
Qed.

(** With 38 bytes or more every field is read at its place, and [setup] is
    what the buffer holds of the [2 * setupCount] bytes after them. *)
Lemma parse_params_full (commandParams : Buffer.t) :
  38 <= Buffer.len commandParams ->
  parse_params commandParams = {|
    maxSetupCount := Some (field_at commandParams 0 1);
    totalParameterCount := Some (field_at commandParams 3 4);
    totalDataCount := Some (field_at commandParams 7 4);
    maxParameterCount := Some (field_at commandParams 11 4);
    maxDataCount := Some (field_at commandParams 15 4);
    parameterCount := Some (field_at commandParams 19 4);
    parameterOffset := Some (field_at commandParams 23 4);
    dataCount := Some (field_at commandParams 27 4);
    dataOffset := Some (field_at commandParams 31 4);
    setupCount := Some (field_at commandParams 35 1);
    function := Some (field_at commandParams 36 2);
    setup := take (Z.to_nat (2 * field_at commandParams 35 1))
               (drop 38 commandParams)
  |}.
Proof.
  intros Hlen.
  assert (Hw : forall k o, 0 <= o -> 0 <= k -> o + k <= 38 ->
            binary.word k commandParams o = (Some (field_at commandParams o k), o + k)).
  { intros k o Ho Hk Hok. unfold binary.word, field_at.
    destruct (Z.leb_spec (o + k) (Buffer.len commandParams)); [|lia].
    rewrite slice_inside by lia. reflexivity. }
  unfold parse_params, binary.run, binary.bind, binary.word8le,
    binary.word16le, binary.word32le, binary.skip, binary.buffer, binary.ret.
  repeat rewrite Hw by lia.
  cbn [fst]. f_equal.
  assert (Hsc : 0 <= field_at commandParams 35 1) by apply decodeLEu_range.
  change (Buffer.slice commandParams 38
            (Z.min (Buffer.len commandParams) (38 + 2 * field_at commandParams 35 1))
          = take (Z.to_nat (2 * field_at commandParams 35 1)) (drop 38 commandParams)).
  set (sc := field_at commandParams 35 1) in *.
  rewrite slice_clamped by lia.
  replace (Z.min 38 (Buffer.len commandParams)) with 38 by lia.
  change (Z.to_nat 38) with 38%nat.
  destruct (Z.le_ge_cases (38 + 2 * sc) (Buffer.len commandParams)).
  - f_equal. lia.
  - rewrite !take_ge; [reflexivity | |]; rewrite length_drop; unfold Buffer.len in *; lia.
Qed.

(** ** Words written by [put] *)

Lemma ToInt32_congr (v : Z) : exists c, put.ToInt32 v = v + c * 2 ^ 32.
Proof.
  unfold put.ToInt32. pose proof (Z.div_mod v (2 ^ 32) ltac:(lia)) as Hv.
  destruct (Z.ltb_spec (v mod 2 ^ 32) (2 ^ 31)).
  - exists (- (v / 2 ^ 32)). lia.
  - exists (- (v / 2 ^ 32) - 1). lia.
Qed.

(** The byte written for a bit position below 32 is that byte of the value:
    the wrap-around of [>>] at 32 bits does not reach it. *)
Lemma byte_at_low (v : Z) (k : nat) :
  (k < 4)%nat ->
  put.byte_at v (8 * Z.of_nat k) = Buffer.byte_of_Z (v / 256 ^ Z.of_nat k).
Proof.
  intros Hk. unfold put.byte_at.
  destruct (Z.leb_spec 32 (8 * Z.of_nat k)); [lia|].
  apply byte_of_Z_mod.
  change 255 with (Z.ones 8). rewrite Z.land_ones by lia.
  rewrite Z.shiftr_div_pow2 by lia.
  change (2 ^ 8) with 256. rewrite Z.mod_mod by lia.
  rewrite Z.pow_mul_r by lia. change (2 ^ 8) with 256.
  destruct (ToInt32_congr v) as [c ->].
  replace (2 ^ 32) with (256 ^ (4 - Z.of_nat k) * 256 ^ Z.of_nat k)
    by (rewrite <- Z.pow_add_r by lia; replace (4 - Z.of_nat k + Z.of_nat k) with 4 by lia;
        reflexivity).
  rewrite Z.mul_assoc, Z.div_add by lia.
  replace (4 - Z.of_nat k) with (Z.succ (3 - Z.of_nat k)) by lia.
  rewrite Z.pow_succ_r by lia.
  replace (c * (256 * 256 ^ (3 - Z.of_nat k))) with (c * 256 ^ (3 - Z.of_nat k) * 256) by lia.
  apply Z_mod_plus_full.
Qed.

Lemma render_word32le (v : Z) : put.render (put.word32le v) = u32le v.
Proof.
  unfold put.word32le, put.render, put.positions, u32le, le_bytes.
  change (Z.to_nat 4) with 4%nat.
  rewrite <- list_fmap_compose. apply list_fmap_ext.
  intros i k Hk. cbn [compose].
  apply lookup_seq in Hk as [-> Hk].
  apply byte_at_low. exact Hk.
Qed.

Lemma render_word8 (v : Z) : put.render (put.word8 v) = [Buffer.byte_of_Z v].
Proof.
  unfold put.word8, put.render, put.positions.
  change (Z.to_nat 1) with 1%nat. cbn [seq fmap list_fmap].
  f_equal. rewrite (byte_at_low v 0) by lia.
  f_equal. change (256 ^ Z.of_nat 0) with 1. apply Z.div_1_r.
Qed.

Lemma byte_at_zero (i : Z) : put.byte_at 0 i = Byte.x00.
Proof.
  unfold put.byte_at. destruct (32 <=? i).
  - rewrite Zdiv_0_l. reflexivity.
  - change (put.ToInt32 0) with 0. rewrite Z.shiftr_0_l. reflexivity.
Qed.

Lemma render_pad (n : Z) : put.render (put.pad n) = filler n.
Proof.
  unfold put.pad, put.render, filler, put.positions.
  cbn match. rewrite fmap_reverse, <- list_fmap_compose.
  set (l := seq 0 (Z.to_nat n)).
  replace (Z.to_nat n) with (length l) by apply length_seq.
  clearbody l. induction l as [|a l IH]; [reflexivity|].
  cbn [fmap list_fmap length replicate compose].
  rewrite reverse_cons, IH, byte_at_zero.
  clear. induction (length l) as [|m IH]; [reflexivity|].
  cbn [replicate app]. f_equal. exact IH.
Qed.

Lemma buffer_cons (w : put.word) (words : list put.word) :
  put.buffer (w :: words) = put.render w ++ put.buffer words.
Proof. reflexivity. Qed.

Lemma buffer_nil : put.buffer [] = [].
Proof. reflexivity. Qed.

(** ** The paths of [handle] *)

Section HandleFacts.

Context {Connection Server : Type}.
Variable consts : Consts.
Variable subCmdHandlers : gmap string (@Handler Connection Server).

Implicit Types (msg : Msg) (commandParams commandData : Buffer.t).
Implicit Types (connection : Connection) (server : Server).
Implicit Types (handler : @Handler Connection Server).

Lemma cb_results_dispatch (name : string) (call : @HandlerCall Connection Server)
    (g : Result.t -> Result.t) (l : list Result.t) :
  cb_results (returns (Invoke name call :: (Callback ∘ g <$> l))) = g <$> l.
Proof.
  unfold cb_results, returns. cbn [events omap list_omap].
  induction l as [|r l IH]; [reflexivity|].
  cbn [fmap list_fmap omap list_omap compose] in *. f_equal. exact IH.
Qed.

Lemma invocations_dispatch (name : string) (call : @HandlerCall Connection Server)
    (g : Result.t -> Result.t) (l : list Result.t) :
  invocations (returns (Invoke name call :: (Callback ∘ g <$> l))) = [(name, call)].
Proof.
  unfold invocations, returns. cbn [events omap list_omap]. f_equal.
  induction l as [|r l IH]; [reflexivity|].
  cbn [fmap list_fmap omap list_omap compose] in *. exact IH.
Qed.

(** The unknown-subcommand path, lines 91-95. *)
Lemma handle_unknown msg commandId commandParams commandData
    commandParamsOffset commandDataOffset connection server :
  subCommand_of consts (function (parse_params commandParams)) = None ->
  handle consts subCmdHandlers msg commandId commandParams commandData
    commandParamsOffset commandDataOffset connection server
  = throws (ReferenceError "self").
Proof. intros H. unfold handle. rewrite H. reflexivity. Qed.

(** The chunked path, lines 112-122. *)
Lemma handle_chunked msg commandId commandParams commandData
    commandParamsOffset commandDataOffset connection server name c :
  subCommand_of consts (function (parse_params commandParams)) = Some name ->
  COMMAND_TO_STRING consts !! commandId = Some c ->
  chunked (parse_params commandParams) = true ->
  handle consts subCmdHandlers msg commandId commandParams commandData
    commandParamsOffset commandDataOffset connection server
  = returns [NextTick (not_implemented consts commandParams commandData)].
Proof.
  intros Hn Hc Hk. unfold handle. rewrite Hn.
  destruct (decode_data _ _ _) as [[? ?] ?]. rewrite Hc.
  unfold chunked in Hk. rewrite Hk. reflexivity.
Qed.

(** The path of a subcommand without handler, lines 190-198. *)
Lemma handle_no_handler msg commandId commandParams commandData
    commandParamsOffset commandDataOffset connection server name c :
  subCommand_of consts (function (parse_params commandParams)) = Some name ->
  COMMAND_TO_STRING consts !! commandId = Some c ->
  chunked (parse_params commandParams) = false ->
  subCmdHandlers !! name = None ->
  handle consts subCmdHandlers msg commandId commandParams commandData
    commandParamsOffset commandDataOffset connection server
  = returns [Callback (not_implemented consts commandParams commandData)].
Proof.
  intros Hn Hc Hk Hh. unfold handle. rewrite Hn.
  destruct (decode_data _ _ _) as [[? ?] ?]. rewrite Hc.
  unfold chunked in Hk. rewrite Hk, Hh. reflexivity.
Qed.

(** The dispatch path, lines 127-189. *)
Lemma handle_dispatch msg commandId commandParams commandData
    commandParamsOffset commandDataOffset connection server name c handler :
  subCommand_of consts (function (parse_params commandParams)) = Some name ->
  COMMAND_TO_STRING consts !! commandId = Some c ->
  chunked (parse_params commandParams) = false ->
  subCmdHandlers !! name = Some handler ->
  handle consts subCmdHandlers msg commandId commandParams commandData
    commandParamsOffset commandDataOffset connection server
  = let call := call_of msg commandParams connection server in
    returns (Invoke name call
             :: (Callback ∘ handler_callback consts commandParams commandData
                 <$> handler call)).
Proof.
  intros Hn Hc Hk Hh. unfold handle. rewrite Hn.
  destruct (decode_data _ _ _) as [[? ?] ?]. rewrite Hc.
  unfold chunked in Hk. rewrite Hk, Hh. reflexivity.
Qed.

(** A handler is called on the dispatch path only. *)
Lemma handle_invoke_inv msg commandId commandParams commandData
    commandParamsOffset commandDataOffset connection server name call :
  (name, call) ∈ invocations
    (handle consts subCmdHandlers msg commandId commandParams commandData
       commandParamsOffset commandDataOffset connection server) ->
  exists handler,
    subCmdHandlers !! name = Some handler
    /\ call = call_of msg commandParams connection server
    /\ handle consts subCmdHandlers msg commandId commandParams commandData
         commandParamsOffset commandDataOffset connection server
       = returns (Invoke name call
                  :: (Callback ∘ handler_callback consts commandParams commandData
                      <$> handler call)).
Proof.
  destruct (subCommand_of consts (function (parse_params commandParams)))
    as [name'|] eqn:Hn.
  2:{ rewrite handle_unknown by assumption. intros H. inversion H. }
  destruct (COMMAND_TO_STRING consts !! commandId) as [c|] eqn:Hc.
  2:{ unfold handle. rewrite Hn. destruct (decode_data _ _ _) as [[? ?] ?].
      rewrite Hc. intros H. inversion H. }
  destruct (chunked (parse_params commandParams)) eqn:Hk.
  { erewrite handle_chunked by eassumption. intros H. inversion H. }
  destruct (subCmdHandlers !! name') as [handler|] eqn:Hh.
  2:{ erewrite handle_no_handler by eassumption. intros H. inversion H. }
  erewrite handle_dispatch by eassumption. cbv zeta.
  rewrite invocations_dispatch. intros H.
  apply list_elem_of_singleton in H. injection H as -> ->.
  exists handler. auto.
Qed.

(** [cb] is called once for each result of the handler, in order. *)
Lemma handle_invoke_results msg commandId commandParams commandData
    commandParamsOffset commandDataOffset connection server name call handler :
  (name, call) ∈ invocations
    (handle consts subCmdHandlers msg commandId commandParams commandData
       commandParamsOffset commandDataOffset connection server) ->
  subCmdHandlers !! name = Some handler ->
  cb_results
    (handle consts subCmdHandlers msg commandId commandParams commandData
       commandParamsOffset commandDataOffset connection server)
  = handler_callback consts commandParams commandData <$> handler call.
Proof.
  intros H Hh. apply handle_invoke_inv in H as (handler' & Hh' & _ & ->).
  rewrite Hh in Hh'. injection Hh' as <-. apply cb_results_dispatch.
Qed.

End HandleFacts.

(** ** The claims about [handle] *)

Section HandleClaims.

Context {Connection Server : Type}.
Variable consts : Consts.
Variable subCmdHandlers : gmap string (@Handler Connection Server).

Implicit Types (msg : Msg) (commandParams commandData : Buffer.t).
Implicit Types (connection : Connection) (server : Server).
Implicit Types (handler : @Handler Connection Server).
Implicit Types (call : @HandlerCall Connection Server).

(** C1, as the code has it: for every request whose decoded function code
    is absent from [NTTRANS_SUBCOMMAND_TO_STRING], [handle] stops at line 92
    with a [ReferenceError] ([self] is not bound); [cb] is never called, so
    no [STATUS_SMB_BAD_COMMAND] result echoing the request buffers is
    delivered. *)
Theorem handle_unknown_subcommand_throws msg commandId commandParams commandData
    commandParamsOffset commandDataOffset connection server (functionCode : Z) :
  function (parse_params commandParams) = Some functionCode ->
  NTTRANS_SUBCOMMAND_TO_STRING consts !! functionCode = None ->
  let o := handle consts subCmdHandlers msg commandId commandParams commandData
             commandParamsOffset commandDataOffset connection server in
  thrown o = Some (ReferenceError "self")
  /\ events o = []
  /\ cb_results o = [].
Proof.
  intros Hf Hn o. subst o.
  rewrite handle_unknown; [repeat split|].
  unfold subCommand_of. rewrite Hf. cbn. rewrite Hn. reflexivity.
Qed.

(** C6: for every request that reaches the check of line 112 (its function
    code resolves to a subcommand name, its command id is listed in
    [COMMAND_TO_STRING]), if [parameterCount < totalParameterCount] or
    [dataCount < totalDataCount], or if [subCmdHandlers] has nothing under the
    resolved name, [handle] completes with status [STATUS_NOT_IMPLEMENTED]
    and the request's own [commandParams] and [commandData]: [cb] is called
    exactly once with this result, on the next tick for a chunked request and
    at once otherwise; no handler is invoked and nothing is thrown. *)
Theorem handle_not_implemented msg commandId commandParams commandData
    commandParamsOffset commandDataOffset connection server (name c : string) :
  let v := parse_params commandParams in
  subCommand_of consts (function v) = Some name ->
  COMMAND_TO_STRING consts !! commandId = Some c ->
  num (parameterCount v) < num (totalParameterCount v)
  \/ num (dataCount v) < num (totalDataCount v)
  \/ unregistered subCmdHandlers name ->
  let o := handle consts subCmdHandlers msg commandId commandParams commandData
             commandParamsOffset commandDataOffset connection server in
  let result := {| Result.status := STATUS_NOT_IMPLEMENTED consts;
                   Result.params := commandParams;
                   Result.data := commandData;
                   Result.setup := None |} in
  events o = [if chunked v then NextTick result else Callback result]
  /\ cb_results o = [result]
  /\ invocations o = []
  /\ thrown o = None.
Proof.
  intros v Hn Hc Hcase o result. subst o result.
  destruct (chunked v) eqn:Hk.
  - subst v. erewrite handle_chunked by eassumption. repeat split.
  - destruct Hcase as [H|[H|(H & _ & _)]].
    + unfold chunked in Hk. apply orb_false_iff in Hk as [Hk _].
      apply Z.ltb_ge in Hk. lia.
    + unfold chunked in Hk. apply orb_false_iff in Hk as [_ Hk].
      apply Z.ltb_ge in Hk. lia.
    + subst v. erewrite handle_no_handler by eassumption. repeat split.
Qed.

(** C7: whenever [handle] invokes a handler and the handler answers with a
    result whose status is not [STATUS_SUCCESS], [cb] is called with that
    very status and with the request's [commandParams] and [commandData] in
    place of the handler's own buffers. *)
Theorem handler_failure_echoes_request msg commandId commandParams commandData
    commandParamsOffset commandDataOffset connection server
    (name : string) call handler (i : nat) (result : Result.t) :
  (name, call) ∈ invocations
    (handle consts subCmdHandlers msg commandId commandParams commandData
       commandParamsOffset commandDataOffset connection server) ->
  subCmdHandlers !! name = Some handler ->
  handler call !! i = Some result ->
  Result.status result <> STATUS_SUCCESS consts ->
  cb_results
    (handle consts subCmdHandlers msg commandId commandParams commandData
       commandParamsOffset commandDataOffset connection server) !! i
  = Some {| Result.status := Result.status result;
            Result.params := commandParams;
            Result.data := commandData;
            Result.setup := Result.setup result |}.
Proof.
  intros Hinv Hh Hr Hs.
  rewrite (handle_invoke_results _ _ _ _ _ _ _ _ _ _ _ _ _ Hinv Hh).
  rewrite list_lookup_fmap, Hr. cbn [fmap option_fmap option_map].
  unfold handler_callback.
  destruct (Z.eqb_spec (Result.status result) (STATUS_SUCCESS consts)); [contradiction|].
  reflexivity.
Qed.

End HandleClaims.

(** ** Response assembly *)

Section ResponseClaims.

Context {Connection Server : Type}.
Variable consts : Consts.
Variable subCmdHandlers : gmap string (@Handler Connection Server).

Implicit Types (msg : Msg) (commandParams commandData : Buffer.t).
Implicit Types (connection : Connection) (server : Server).
Implicit Types (handler : @Handler Connection Server).
Implicit Types (call : @HandlerCall Connection Server).

Lemma response_fixed_length (p d s : Buffer.t) :
  length (response_fixed consts p d s) = 35%nat.
Proof.
  unfold response_fixed, u32le, filler. cbv zeta.
  rewrite !length_app, !le_bytes_length, length_replicate. reflexivity.
Qed.

Lemma build_response_params (result : Result.t) :
  let s := default utils.EMPTY_BUFFER (Result.setup result) in
  Result.params (build_response consts result)
  = response_fixed consts (Result.params result) (Result.data result) s
    ++ Buffer.byte_of_Z (Buffer.len s) :: s.
Proof.
  cbv zeta. unfold build_response, response_fixed.
  cbn [Result.params].
  rewrite !buffer_cons, buffer_nil, render_pad, !render_word32le, render_word8.
  cbn [put.render put.put]. rewrite app_nil_r.
  rewrite <- !app_assoc. reflexivity.
Qed.

Lemma build_response_data (result : Result.t) :
  let s := default utils.EMPTY_BUFFER (Result.setup result) in
  let l := layout consts (Result.params result) (Result.data result) s in
  Result.data (build_response consts result)
  = filler (pad1 l) ++ Result.params result
    ++ filler (pad2 l) ++ Result.data result.
Proof.
  cbv zeta. unfold build_response. cbn [Result.data].
  rewrite !buffer_cons, buffer_nil, !render_pad.
  cbn [put.render put.put]. rewrite app_nil_r. reflexivity.
Qed.

Lemma handler_callback_success (commandParams commandData : Buffer.t) (result : Result.t) :
  Result.status result = STATUS_SUCCESS consts ->
  handler_callback consts commandParams commandData result
  = build_response consts result.
Proof.
  intros Hs. unfold handler_callback. rewrite Hs, Z.eqb_refl. reflexivity.
Qed.

(** C8: whenever [handle] invokes a handler and the handler answers with a
    result of status [STATUS_SUCCESS], parameters [p], data [d] and setup
    [s] (empty when absent), [cb] is called with status [STATUS_SUCCESS] and
    - a parameter buffer of [36 + s.length] bytes: three filler bytes, the
      little-endian 32-bit words [p.length], [d.length], [p.length],
      [subParamsOffset], [0], [d.length], [subDataOffset], [0], one byte of
      SetupCount, then [s];
    - a data buffer made of [pad1] filler bytes, [p], [pad2] filler bytes
      and [d];
    where the offsets are laid out left to right from
    [dataOffset = SMB_MIN_LENGTH + 36 + s.length]. *)
Theorem handler_success_response msg commandId commandParams commandData
    commandParamsOffset commandDataOffset connection server
    (name : string) call handler (i : nat) (result : Result.t) :
  (name, call) ∈ invocations
    (handle consts subCmdHandlers msg commandId commandParams commandData
       commandParamsOffset commandDataOffset connection server) ->
  subCmdHandlers !! name = Some handler ->
  handler call !! i = Some result ->
  Result.status result = STATUS_SUCCESS consts ->
  let p := Result.params result in
  let d := Result.data result in
  let s := default utils.EMPTY_BUFFER (Result.setup result) in
  let l := layout consts p d s in
  exists params data,
    cb_results
      (handle consts subCmdHandlers msg commandId commandParams commandData
         commandParamsOffset commandDataOffset connection server) !! i
    = Some {| Result.status := STATUS_SUCCESS consts;
              Result.params := params;
              Result.data := data;
              Result.setup := None |}
    /\ Buffer.len params = 36 + Buffer.len s
    /\ params = filler 3
                ++ u32le (Buffer.len p) ++ u32le (Buffer.len d)
                ++ u32le (Buffer.len p) ++ u32le (subParamsOffset l)
                ++ u32le 0
                ++ u32le (Buffer.len d) ++ u32le (subDataOffset l)
                ++ u32le 0
                ++ u8 (Buffer.len s) ++ s
    /\ data = filler (pad1 l) ++ p ++ filler (pad2 l) ++ d
    /\ l_dataOffset l = SMB_MIN_LENGTH consts + 36 + Buffer.len s
    /\ pad1 l = utils.calculatePadLength (l_dataOffset l) 4
    /\ subParamsOffset l = l_dataOffset l + pad1 l
    /\ pad2 l = utils.calculatePadLength (subParamsOffset l + Buffer.len p) 4
    /\ subDataOffset l = subParamsOffset l + Buffer.len p + pad2 l.
Proof.
  intros Hinv Hh Hr Hs p d s l.
  exists (Result.params (build_response consts result)),
         (Result.data (build_response consts result)).
  split.
  { rewrite (handle_invoke_results _ _ _ _ _ _ _ _ _ _ _ _ _ Hinv Hh).
    rewrite list_lookup_fmap, Hr. cbn [fmap option_fmap option_map].
    rewrite handler_callback_success by assumption. reflexivity. }
  rewrite build_response_params, build_response_data. fold p d s l.
  split.
  { unfold Buffer.len. rewrite length_app, response_fixed_length, length_cons. lia. }
  split.
  { unfold response_fixed. fold l. rewrite <- !app_assoc, u8_byte. reflexivity. }
  split; [reflexivity|].
  subst l. unfold layout. cbn. repeat split; lia.
Qed.

(** C10: whenever [handle] invokes a handler and the handler answers with a
    result of status [STATUS_SUCCESS] whose setup buffer has [n] bytes, the
    SetupCount byte of the response parameters (the byte at index 35) is
    [n mod 256]; it is [n] exactly when [n < 256], while the parameter
    buffer is [36 + n] bytes long whatever [n] is. *)
Theorem response_setup_count_wraps msg commandId commandParams commandData
    commandParamsOffset commandDataOffset connection server
    (name : string) call handler (i : nat) (result : Result.t) :
  (name, call) ∈ invocations
    (handle consts subCmdHandlers msg commandId commandParams commandData
       commandParamsOffset commandDataOffset connection server) ->
  subCmdHandlers !! name = Some handler ->
  handler call !! i = Some result ->
  Result.status result = STATUS_SUCCESS consts ->
  let n := Buffer.len (default utils.EMPTY_BUFFER (Result.setup result)) in
  exists response,
    cb_results
      (handle consts subCmdHandlers msg commandId commandParams commandData
         commandParamsOffset commandDataOffset connection server) !! i
    = Some response
    /\ Buffer.byte_val <$> Result.params response !! 35%nat = Some (n mod 256)
    /\ (Buffer.byte_val <$> Result.params response !! 35%nat = Some n <-> n < 256)
    /\ Buffer.len (Result.params response) = 36 + n.
Proof.
  intros Hinv Hh Hr Hs n.
  exists (build_response consts result). split.
  { rewrite (handle_invoke_results _ _ _ _ _ _ _ _ _ _ _ _ _ Hinv Hh).
    rewrite list_lookup_fmap, Hr. cbn [fmap option_fmap option_map].
    rewrite handler_callback_success by assumption. reflexivity. }
  rewrite build_response_params. fold n.
  match goal with |- ?A /\ _ => assert (Hbyte : A) end.
  { rewrite (list_lookup_middle (response_fixed _ _ _ _) _ _ 35)
      by (symmetry; apply response_fixed_length).
    cbn [fmap option_fmap option_map]. rewrite byte_val_of_Z. reflexivity. }
  split; [exact Hbyte|].
  split.
  { rewrite Hbyte.
    pose proof (len_nonneg (default utils.EMPTY_BUFFER (Result.setup result))) as Hn.
    fold n in Hn. split.
    - intros [= H]. pose proof (Z.mod_pos_bound n 256 ltac:(lia)). lia.
    - intros H. f_equal. apply Z.mod_small. lia. }
  unfold Buffer.len. rewrite length_app, response_fixed_length, length_cons.
  subst n. unfold Buffer.len. lia.
Qed.

(** C9: in the layout of a response, [dataOffset <= subParamsOffset], and
    [subParamsOffset < subDataOffset] whenever [params] is not empty. *)
Theorem layout_offsets_monotone (params data setup : Buffer.t) :
  let l := layout consts params data setup in
  l_dataOffset l <= subParamsOffset l
  /\ (0 < Buffer.len params -> subParamsOffset l < subDataOffset l).
Proof.
  cbv zeta. unfold layout. cbn [l_dataOffset subParamsOffset subDataOffset].
  set (dataOffset := SMB_MIN_LENGTH consts + (36 + Buffer.len setup)).
  pose proof (calculatePadLength_range dataOffset) as H1.
  set (pad1 := utils.calculatePadLength dataOffset 4) in *.
  pose proof (calculatePadLength_range (dataOffset + pad1 + Buffer.len params)) as H2.
  split; [lia|]. intros Hp. lia.
Qed.

End ResponseClaims.

(** ** Decoding: short headers and far offsets *)

Lemma word_inside (bytes : Z) (buffer : Buffer.t) (offset offset' : Z) (r : option Z) :
  0 <= offset -> 0 <= bytes ->
  binary.word bytes buffer offset = (r, offset') ->
  read_inside buffer bytes r /\ 0 <= offset'.
Proof.
  intros Ho Hb H. split.
  - intros v ->. apply word_Some in H as (_ & Hle & -> & _); [|lia|lia].
    exists offset. auto.
  - apply word_offset in H; [tauto | lia | lia].
Qed.

Lemma parse_params_inside (commandParams : Buffer.t) :
  vars_inside commandParams (parse_params commandParams).
Proof.
  parse_chain commandParams. unfold vars_inside. cbn.
  repeat match goal with
  | E : binary.word _ _ ?o = (_, _) |- _ =>
    apply word_inside in E as [? ?]; [| lia | lia]
  end.
  repeat (split; [assumption|]).
  unfold Buffer.slice. eauto.
Qed.

(** C5, amended: for every [commandParams] shorter than the fixed header
    of 38 bytes plus the [2 * setupCount] setup bytes, the decoding of lines
    72-86 does not fail and makes no error result, it yields a header: a
    buffer of fewer than 38 bytes yields one in which some fixed field is
    [null]; a longer one yields all fixed fields and, as [setup], the bytes
    that are left after them, fewer than [2 * setupCount]. Every value
    decoded comes from bytes inside the buffer. Of what [handle] does next
    with such a header nothing is said here. *)
Theorem parse_params_truncated (commandParams : Buffer.t) :
  let v := parse_params commandParams in
  Buffer.len commandParams < 38 + 2 * num (setupCount v) ->
  (Buffer.len commandParams < 38 /\ header_complete v = false
   \/ 38 <= Buffer.len commandParams /\ header_complete v = true
      /\ setup v = drop 38 commandParams
      /\ Buffer.len (setup v) = Buffer.len commandParams - 38)
  /\ vars_inside commandParams v.
Proof.
  intros v Hshort. split; [|apply parse_params_inside].
  destruct (Z.lt_ge_cases (Buffer.len commandParams) 38) as [Hlt|Hge].
  - left. split; [assumption|].
    destruct (header_complete v) eqn:Hc; [|reflexivity].
    apply parse_params_complete_len in Hc. lia.
  - right. split; [assumption|].
    subst v. rewrite parse_params_full in * by assumption.
    cbn [setup setupCount num default from_option id] in *.
    split; [reflexivity|].
    assert (Hs : take (Z.to_nat (2 * field_at commandParams 35 1)) (drop 38 commandParams)
                 = drop 38 commandParams).
    { apply take_ge. rewrite length_drop. unfold Buffer.len in *. lia. }
    rewrite Hs. split; [reflexivity|].
    unfold Buffer.len in *. rewrite length_drop. lia.
Qed.

Section OffsetClaims.

Context {Connection Server : Type}.
Variable consts : Consts.
Variable subCmdHandlers : gmap string (@Handler Connection Server).

Implicit Types (msg : Msg) (commandParams commandData : Buffer.t).
Implicit Types (connection : Connection) (server : Server).
Implicit Types (handler : @Handler Connection Server).

Lemma clamped_lookup (buffer : Buffer.t) (offset count : Z) (i : nat) (x : Byte.byte) :
  0 <= offset ->
  clamped buffer offset count !! i = Some x ->
  buffer !! (Z.to_nat offset + i)%nat = Some x.
Proof.
  intros Ho H. unfold clamped in H.
  apply lookup_take_Some in H as [H _]. rewrite lookup_drop in H.
  pose proof (lookup_lt_Some _ _ _ H) as Hlt.
  rewrite <- H. f_equal. unfold Buffer.len in *. lia.
Qed.

(** C2, amended: a header whose [parameterOffset] or [dataOffset] (with
    [parameterCount] or [dataCount]) does not lie within the message buffer
    is not refused: on the dispatch path the handler is invoked all the
    same, with slices clamped to the buffer, that is with those bytes of
    [offset, offset + count) that the buffer has (none when the offset lies
    beyond its end); no byte outside the buffer is read. *)
Theorem absolute_slices_clamped msg commandId commandParams commandData
    commandParamsOffset commandDataOffset connection server
    (name c : string) handler :
  let v := parse_params commandParams in
  subCommand_of consts (function v) = Some name ->
  COMMAND_TO_STRING consts !! commandId = Some c ->
  chunked v = false ->
  subCmdHandlers !! name = Some handler ->
  let o := handle consts subCmdHandlers msg commandId commandParams commandData
             commandParamsOffset commandDataOffset connection server in
  exists call,
    invocations o = [(name, call)]
    /\ thrown o = None
    /\ h_commandParams call
       = clamped (buf msg) (num (parameterOffset v)) (num (parameterCount v))
    /\ h_commandData call
       = clamped (buf msg) (num (dataOffset v)) (num (dataCount v))
    /\ (forall i x, h_commandParams call !! i = Some x ->
          buf msg !! (Z.to_nat (num (parameterOffset v)) + i)%nat = Some x)
    /\ (forall i x, h_commandData call !! i = Some x ->
          buf msg !! (Z.to_nat (num (dataOffset v)) + i)%nat = Some x).
Proof.
  intros v Hn Hc Hk Hh o. subst o.
  erewrite handle_dispatch by eassumption. cbv zeta.
  exists (call_of msg commandParams connection server).
  rewrite invocations_dispatch.
  destruct (parse_params_nonneg commandParams) as (_ & _ & Hpc & Hpo & Hdc & Hdo & _).
  fold v in Hpc, Hpo, Hdc, Hdo.
  assert (Hp : h_commandParams (call_of msg commandParams connection server)
               = clamped (buf msg) (num (parameterOffset v)) (num (parameterCount v))).
  { unfold call_of. cbn [h_commandParams]. fold v.
    rewrite slice_clamped by lia. reflexivity. }
  assert (Hd : h_commandData (call_of msg commandParams connection server)
               = clamped (buf msg) (num (dataOffset v)) (num (dataCount v))).
  { unfold call_of. cbn [h_commandData]. fold v.
    rewrite slice_clamped by lia. reflexivity. }
  split; [reflexivity|]. split; [reflexivity|].
  split; [exact Hp|]. split; [exact Hd|].
  rewrite Hp, Hd. split; intros i x; apply clamped_lookup; assumption.
Qed.

(** Apart from the two throwing paths, [cb] is called exactly once when the
    handler completes exactly once. *)
Lemma handle_completes_once msg commandId commandParams commandData
    commandParamsOffset commandDataOffset connection server (name c : string) :
  subCommand_of consts (function (parse_params commandParams)) = Some name ->
  COMMAND_TO_STRING consts !! commandId = Some c ->
  (forall handler call, subCmdHandlers !! name = Some handler ->
                        length (handler call) = 1%nat) ->
  let o := handle consts subCmdHandlers msg commandId commandParams commandData
             commandParamsOffset commandDataOffset connection server in
  length (cb_results o) = 1%nat /\ thrown o = None.
Proof.
  intros Hn Hc Hone o. subst o.
  destruct (chunked (parse_params commandParams)) eqn:Hk.
  { erewrite handle_chunked by eassumption. split; reflexivity. }
  destruct (subCmdHandlers !! name) as [handler|] eqn:Hh.
  2:{ erewrite handle_no_handler by eassumption. split; reflexivity. }
  erewrite handle_dispatch by eassumption. cbv zeta.
  rewrite cb_results_dispatch, length_fmap. split; [|reflexivity].
  apply (Hone handler). reflexivity.
Qed.

(** X20: the local slices of lines 100 and 104 end at index
    [parameterCount] and at index [dataCount] of [commandData]; these are not
    their lengths, which are what is left, if anything, between the padded
    start and that index, inside the buffer. *)
Lemma decode_data_slices commandParams commandData (commandDataOffset : Z) :
  let v := parse_params commandParams in
  let off1 := utils.calculatePadLength commandDataOffset 4 in
  let off2 := off1 + num (parameterCount v) in
  let off3 := off2 + utils.calculatePadLength off2 4 in
  decode_data commandData commandDataOffset v
  = (Buffer.slice commandData off1 (num (parameterCount v)),
     Buffer.slice commandData off3 (num (dataCount v)),
     off3 + num (dataCount v))
  /\ Buffer.len (Buffer.slice commandData off1 (num (parameterCount v)))
     = Z.max 0 (Z.min (num (parameterCount v)) (Buffer.len commandData)
                - Z.min off1 (Buffer.len commandData))
  /\ Buffer.len (Buffer.slice commandData off3 (num (dataCount v)))
     = Z.max 0 (Z.min (num (dataCount v)) (Buffer.len commandData)
                - Z.min off3 (Buffer.len commandData)).
Proof.
  intros v off1 off2 off3.
  destruct (parse_params_nonneg commandParams) as (_ & _ & Hpc & _ & Hdc & _).
  fold v in Hpc, Hdc.
  pose proof (calculatePadLength_range commandDataOffset) as H1. fold off1 in H1.
  pose proof (calculatePadLength_range off2) as H2.
  pose proof (len_nonneg commandData) as Hl.
  split; [reflexivity|].
  rewrite !slice_len, !adjustOffset_nonneg by (subst off3 off2; lia).
  split; reflexivity.
Qed.

End OffsetClaims.

(** ** The sample server at work *)

(** C3, at a request the code can receive: with [commandDataOffset = 73],
    [parameterCount = 4] and [dataCount = 4], the local parameter slice starts
    3 bytes in but is [commandData.slice(3, 4)], one byte and not four, and
    the local data slice is [commandData.slice(8, 4)], empty and not four
    bytes: the second argument of [slice] is an end index, not a length. *)
Theorem decode_data_end_index :
  let v := parse_params (Sample.request 2) in
  parameterCount v = Some 4 /\ dataCount v = Some 4
  /\ chunked v = false
  /\ Buffer.len Sample.commandData = 12
  /\ utils.calculatePadLength 73 4 = 3
  /\ decode_data Sample.commandData 73 v = ([Buffer.byte_of_Z 4], [], 12).
Proof. vm_compute. repeat split. Qed.

(** C4, at a request the code can receive: every registered handler
    completes exactly once, yet for function code 0xFFFF [handle] ends with a
    [ReferenceError] and [cb] is not called at all. *)
Theorem handle_unknown_never_completes :
  (forall name handler call,
     Sample.subCmdHandlers !! name = Some handler -> length (handler call) = 1%nat)
  /\ function (parse_params (Sample.request 0xFFFF)) = Some 0xFFFF
  /\ let o := Sample.handle (Sample.request 0xFFFF) Sample.commandData 33 73 tt tt in
     length (cb_results o) = 0%nat
     /\ thrown o = Some (ReferenceError "self").
Proof.
  split.
  - intros name handler call H. unfold Sample.subCmdHandlers in H.
    apply lookup_insert_Some in H as [[_ <-]|[_ H]]; [reflexivity|].
    apply lookup_insert_Some in H as [[_ <-]|[_ H]]; [reflexivity|].
    apply lookup_singleton_Some in H as [_ <-]. reflexivity.
  - vm_compute. repeat split.
Qed.

(** C2 as stated fails: [parameterOffset = 1000] lies beyond the 16 bytes of
    the message, yet the request is not refused; the handler is invoked with
    an empty parameter slice and [cb] receives [STATUS_SUCCESS]. *)
Lemma far_offset_is_dispatched :
  let v := parse_params Sample.request_far in
  let o := Sample.handle Sample.request_far Sample.commandData 33 73 tt tt in
  Buffer.len (buf Sample.msg) = 16
  /\ parameterOffset v = Some 1000 /\ parameterCount v = Some 4
  /\ (h_commandParams ∘ snd <$> invocations o) = [ [] ]
  /\ (fst <$> invocations o) = [ "ioctl"%string ]
  /\ (Result.status <$> cb_results o) = [ STATUS_SUCCESS Sample.consts ]
  /\ thrown o = None.
Proof. vm_compute. repeat split. Qed.

(** C5 as stated fails: a [commandParams] of 6 bytes, shorter than the fixed
    header, is decoded without failure ([function = 2], the 32-bit fields
    [null]); the request is dispatched to the handler and [cb] receives
    [STATUS_SUCCESS], not an error result. *)
Lemma short_header_is_dispatched :
  let v := parse_params Sample.request_short in
  let o := Sample.handle Sample.request_short Sample.commandData 33 73 tt tt in
  Buffer.len Sample.request_short = 6
  /\ function v = Some 2 /\ parameterCount v = None
  /\ (fst <$> invocations o) = [ "ioctl"%string ]
  /\ (Result.status <$> cb_results o) = [ STATUS_SUCCESS Sample.consts ]
  /\ thrown o = None.
Proof. vm_compute. repeat split. Qed.

(** *** Instances *)

Lemma handle_unknown_subcommand_throws_witness :
  let o := Sample.handle (Sample.request 0xFFFF) Sample.commandData 33 73 tt tt in
  function (parse_params (Sample.request 0xFFFF)) = Some 0xFFFF
  /\ NTTRANS_SUBCOMMAND_TO_STRING Sample.consts !! 0xFFFF = None
  /\ thrown o = Some (ReferenceError "self")
  /\ events o = []
  /\ cb_results o = [].
Proof.
  cbv zeta.
  assert (H1 : function (parse_params (Sample.request 0xFFFF)) = Some 0xFFFF)
    by (vm_compute; reflexivity).
  assert (H2 : NTTRANS_SUBCOMMAND_TO_STRING Sample.consts !! 0xFFFF = None)
    by (vm_compute; reflexivity).
  split; [exact H1|]. split; [exact H2|].
  exact (handle_unknown_subcommand_throws Sample.consts Sample.subCmdHandlers
           Sample.msg 0xA0 (Sample.request 0xFFFF) Sample.commandData 33 73 tt tt
           0xFFFF H1 H2).
Defined.

Lemma handle_not_implemented_witness :
  let chunked_o := Sample.handle (Sample.request_chunked 2) Sample.commandData 33 73 tt tt in
  let rename_o := Sample.handle (Sample.request 5) Sample.commandData 33 73 tt tt in
  let chunked_result := {| Result.status := 0xC0000002;
                           Result.params := Sample.request_chunked 2;
                           Result.data := Sample.commandData;
                           Result.setup := None |} in
  let rename_result := {| Result.status := 0xC0000002;
                          Result.params := Sample.request 5;
                          Result.data := Sample.commandData;
                          Result.setup := None |} in
  (events chunked_o = [NextTick chunked_result]
   /\ cb_results chunked_o = [chunked_result]
   /\ invocations chunked_o = [] /\ thrown chunked_o = None)
  /\ (unregistered Sample.subCmdHandlers "rename"
      /\ events rename_o = [Callback rename_result]
      /\ cb_results rename_o = [rename_result]
      /\ invocations rename_o = [] /\ thrown rename_o = None).
Proof.
  cbv zeta. split.
  - apply (handle_not_implemented Sample.consts Sample.subCmdHandlers
             Sample.msg 0xA0 (Sample.request_chunked 2) Sample.commandData 33 73 tt tt
             "ioctl" "nt_transact").
    + vm_compute; reflexivity.
    + vm_compute; reflexivity.
    + left. vm_compute; reflexivity.
  - assert (Hun : unregistered Sample.subCmdHandlers "rename").
    { split; [vm_compute; reflexivity|]. split; [|vm_compute; reflexivity].
      intros H. unfold Object_prototype_names in H.
      repeat (apply elem_of_cons in H as [H|H]; [discriminate H|]).
      inversion H. }
    split; [exact Hun|].
    apply (handle_not_implemented Sample.consts Sample.subCmdHandlers
             Sample.msg 0xA0 (Sample.request 5) Sample.commandData 33 73 tt tt
             "rename" "nt_transact").
    + vm_compute; reflexivity.
    + vm_compute; reflexivity.
    + right. right. exact Hun.
Defined.

Lemma handler_failure_echoes_request_witness :
  let o := Sample.handle (Sample.request 4) Sample.commandData 33 73 tt tt in
  let call := call_of Sample.msg (Sample.request 4) tt tt in
  let result := {| Result.status := Sample.STATUS_ACCESS_DENIED;
                   Result.params := [Byte.xaa];
                   Result.data := [Byte.xbb];
                   Result.setup := None |} in
  ("notify_change"%string, call) ∈ invocations o
  /\ Sample.notify_change call !! 0%nat = Some result
  /\ Result.status result <> STATUS_SUCCESS Sample.consts
  /\ cb_results o !! 0%nat
     = Some {| Result.status := Sample.STATUS_ACCESS_DENIED;
               Result.params := Sample.request 4;
               Result.data := Sample.commandData;
               Result.setup := None |}.
Proof.
  cbv zeta.
  assert (H1 : ("notify_change"%string, call_of Sample.msg (Sample.request 4) tt tt)
               ∈ invocations
                   (Sample.handle (Sample.request 4) Sample.commandData 33 73 tt tt))
    by (vm_compute; constructor).
  assert (H3 : Sample.STATUS_ACCESS_DENIED <> STATUS_SUCCESS Sample.consts)
    by (vm_compute; discriminate).
  split; [exact H1|]. split; [reflexivity|]. split; [exact H3|].
  exact (handler_failure_echoes_request Sample.consts Sample.subCmdHandlers
           Sample.msg 0xA0 (Sample.request 4) Sample.commandData 33 73 tt tt
           "notify_change" _ Sample.notify_change 0 _ H1 eq_refl eq_refl H3).
Defined.

Lemma handler_success_response_witness :
  let o := Sample.handle (Sample.request 2) Sample.commandData 33 73 tt tt in
  exists params data,
    cb_results o !! 0%nat
    = Some {| Result.status := 0; Result.params := params;
              Result.data := data; Result.setup := None |}
    /\ Buffer.len params = 36
    /\ params = filler 3 ++ u32le 4 ++ u32le 0 ++ u32le 4 ++ u32le 72 ++ u32le 0
                ++ u32le 0 ++ u32le 76 ++ u32le 0 ++ u8 0 ++ []
    /\ data = filler 1 ++ [Byte.x01; Byte.x02; Byte.x03; Byte.x04] ++ filler 0 ++ [].
Proof.
  cbv zeta.
  assert (H1 : ("ioctl"%string, call_of Sample.msg (Sample.request 2) tt tt)
               ∈ invocations
                   (Sample.handle (Sample.request 2) Sample.commandData 33 73 tt tt))
    by (vm_compute; constructor).
  destruct (handler_success_response Sample.consts Sample.subCmdHandlers
              Sample.msg 0xA0 (Sample.request 2) Sample.commandData 33 73 tt tt
              "ioctl" _ Sample.ioctl 0 _ H1 eq_refl eq_refl eq_refl)
    as (params & data & Hcb & Hlen & Hparams & Hdata & _).
  exists params, data.
  split; [exact Hcb|]. split; [exact Hlen|]. split; [exact Hparams | exact Hdata].
Defined.

Lemma response_setup_count_wraps_witness :
  let o := Sample.handle (Sample.request 1) Sample.commandData 33 73 tt tt in
  exists response,
    cb_results o !! 0%nat = Some response
    /\ Buffer.byte_val <$> Result.params response !! 35%nat = Some 44
    /\ Buffer.len (Result.params response) = 336.
Proof.
  cbv zeta.
  assert (H1 : ("create"%string, call_of Sample.msg (Sample.request 1) tt tt)
               ∈ invocations
                   (Sample.handle (Sample.request 1) Sample.commandData 33 73 tt tt))
    by (vm_compute; constructor).
  destruct (response_setup_count_wraps Sample.consts Sample.subCmdHandlers
              Sample.msg 0xA0 (Sample.request 1) Sample.commandData 33 73 tt tt
              "create" _ Sample.create 0 _ H1 eq_refl eq_refl eq_refl)
    as (response & Hcb & Hbyte & _ & Hlen).
  exists response.
  split; [exact Hcb|]. split; [exact Hbyte | exact Hlen].
Defined.

Lemma layout_offsets_monotone_witness :
  let l := layout Sample.consts [Byte.x01; Byte.x02; Byte.x03; Byte.x04] [] [] in
  0 < Buffer.len [Byte.x01; Byte.x02; Byte.x03; Byte.x04]
  /\ l_dataOffset l <= subParamsOffset l
  /\ subParamsOffset l < subDataOffset l.
Proof.
  cbv zeta.
  assert (H : 0 < Buffer.len [Byte.x01; Byte.x02; Byte.x03; Byte.x04])
    by (vm_compute; reflexivity).
  split; [exact H|].
  destruct (layout_offsets_monotone Sample.consts
              [Byte.x01; Byte.x02; Byte.x03; Byte.x04] [] []) as [H1 H2].
  split; [exact H1 | exact (H2 H)].
Defined.

Lemma absolute_slices_clamped_witness :
  let o := Sample.handle Sample.request_far Sample.commandData 33 73 tt tt in
  exists call,
    invocations o = [("ioctl"%string, call)]
    /\ thrown o = None
    /\ h_commandParams call = clamped (buf Sample.msg) 1000 4
    /\ h_commandData call = clamped (buf Sample.msg) 8 4.
Proof.
  cbv zeta.
  destruct (absolute_slices_clamped Sample.consts Sample.subCmdHandlers
              Sample.msg 0xA0 Sample.request_far Sample.commandData 33 73 tt tt
              "ioctl" "nt_transact" Sample.ioctl
              ltac:(vm_compute; reflexivity) ltac:(vm_compute; reflexivity)
              ltac:(vm_compute; reflexivity) ltac:(vm_compute; reflexivity))
    as (call & Hinv & Hthrown & Hp & Hd & _).
  exists call.
  split; [exact Hinv|]. split; [exact Hthrown|]. split; [exact Hp | exact Hd].
Defined.

Lemma parse_params_truncated_witness :
  let v := parse_params Sample.request_short in
  Buffer.len Sample.request_short < 38 + 2 * num (setupCount v)
  /\ (Buffer.len Sample.request_short < 38 /\ header_complete v = false
      \/ 38 <= Buffer.len Sample.request_short /\ header_complete v = true
         /\ setup v = drop 38 Sample.request_short
         /\ Buffer.len (setup v) = Buffer.len Sample.request_short - 38)
  /\ vars_inside Sample.request_short v.
Proof.
  cbv zeta.
  assert (H : Buffer.len Sample.request_short
              < 38 + 2 * num (setupCount (parse_params Sample.request_short)))
    by (vm_compute; reflexivity).
  split; [exact H|].
  exact (parse_params_truncated Sample.request_short H).
Defined.

(** * Further properties *)

(** ** Of [handle] as a whole *)

Section HandleMore.

Context {Connection Server : Type}.
Variable consts : Consts.
Variable subCmdHandlers : gmap string (@Handler Connection Server).

Implicit Types (msg : Msg) (commandParams commandData : Buffer.t).
Implicit Types (connection : Connection) (server : Server).
Implicit Types (handler : @Handler Connection Server).
Implicit Types (call : @HandlerCall Connection Server).

(** X1: what [handle] does depends neither on [commandParamsOffset] nor on
    [commandDataOffset]: the slices that lines 99-105 take from
    [commandData] are used nowhere. *)
Theorem handle_ignores_command_offsets msg commandId commandParams commandData
    connection server (commandParamsOffset commandDataOffset
                       commandParamsOffset' commandDataOffset' : Z) :
  handle consts subCmdHandlers msg commandId commandParams commandData
    commandParamsOffset commandDataOffset connection server
  = handle consts subCmdHandlers msg commandId commandParams commandData
      commandParamsOffset' commandDataOffset' connection server.
Proof.
  unfold handle.
  destruct (subCommand_of consts (function (parse_params commandParams))); [|reflexivity].
  destruct (decode_data commandData commandDataOffset _) as [[? ?] ?].
  destruct (decode_data commandData commandDataOffset' _) as [[? ?] ?].
  reflexivity.
Qed.

(** X2: when the resolved subcommand name is either registered or unknown to
    the registry object altogether, [handle] ends without an exception
    exactly when the function code resolves to a subcommand name and the
    command id is listed in [COMMAND_TO_STRING]. *)
Theorem handle_returns_iff msg commandId commandParams commandData
    commandParamsOffset commandDataOffset connection server :
  lookup_settled consts subCmdHandlers commandParams ->
  thrown (handle consts subCmdHandlers msg commandId commandParams commandData
            commandParamsOffset commandDataOffset connection server) = None
  <-> is_Some (subCommand_of consts (function (parse_params commandParams)))
      /\ is_Some (COMMAND_TO_STRING consts !! commandId).
Proof.
  intros _. unfold handle.
  destruct (subCommand_of consts (function (parse_params commandParams))) as [name|].
  2:{ cbn. split; [discriminate|]. intros [[? [=]] _]. }
  destruct (decode_data _ _ _) as [[? ?] ?].
  destruct (COMMAND_TO_STRING consts !! commandId) as [c|].
  2:{ cbn. split; [discriminate|]. intros [_ [? [=]]]. }
  split; [eauto|]. intros _.
  destruct (_ || _); [reflexivity|].
  destruct (subCmdHandlers !! name); reflexivity.
Qed.


(** X4: when every registered handler completes exactly once and the
    resolved subcommand name is either registered or unknown to the registry
    object altogether, [cb] is called exactly once if, and only if, the
    function code resolves to a subcommand name and the command id is listed
    in [COMMAND_TO_STRING]; otherwise it is not called at all. *)
Theorem cb_called_once_iff msg commandId commandParams commandData
    commandParamsOffset commandDataOffset connection server :
  (forall name handler call,
     subCmdHandlers !! name = Some handler -> length (handler call) = 1%nat) ->
  lookup_settled consts subCmdHandlers commandParams ->
  let o := handle consts subCmdHandlers msg commandId commandParams commandData
             commandParamsOffset commandDataOffset connection server in
  (length (cb_results o) = 1%nat
   <-> is_Some (subCommand_of consts (function (parse_params commandParams)))
       /\ is_Some (COMMAND_TO_STRING consts !! commandId))
  /\ (length (cb_results o) = 1%nat \/ cb_results o = []).
Proof.
  intros Hone _ o. subst o.
  destruct (subCommand_of consts (function (parse_params commandParams)))
    as [name|] eqn:Hn.
  2:{ rewrite handle_unknown by assumption. cbn. split; [|auto].
      split; [discriminate|]. intros [[? [=]] _]. }
  destruct (COMMAND_TO_STRING consts !! commandId) as [c|] eqn:Hc.
  2:{ unfold handle. rewrite Hn. destruct (decode_data _ _ _) as [[? ?] ?].
      rewrite Hc. cbn. split; [|auto].
      split; [discriminate|]. intros [_ [? [=]]]. }
  assert (H1 : length (cb_results
                 (handle consts subCmdHandlers msg commandId commandParams commandData
                    commandParamsOffset commandDataOffset connection server)) = 1%nat).
  { destruct (chunked (parse_params commandParams)) eqn:Hk.
    { erewrite handle_chunked by eassumption. reflexivity. }
    destruct (subCmdHandlers !! name) as [handler|] eqn:Hh.
    2:{ erewrite handle_no_handler by eassumption. reflexivity. }
    erewrite handle_dispatch by eassumption. cbv zeta.
    rewrite cb_results_dispatch, length_fmap. apply (Hone name handler). exact Hh. }
  split; [|auto]. split; eauto.
Qed.

(** X5: whatever a handler answers, success or failure, the status [cb]
    receives is the status of the handler's result. *)
Theorem handler_status_forwarded msg commandId commandParams commandData
    commandParamsOffset commandDataOffset connection server
    (name : string) call handler (i : nat) (result : Result.t) :
  (name, call) ∈ invocations
    (handle consts subCmdHandlers msg commandId commandParams commandData
       commandParamsOffset commandDataOffset connection server) ->
  subCmdHandlers !! name = Some handler ->
  handler call !! i = Some result ->
  Result.status <$>
    cb_results
      (handle consts subCmdHandlers msg commandId commandParams commandData
         commandParamsOffset commandDataOffset connection server) !! i
  = Some (Result.status result).
Proof.
  intros Hinv Hh Hr.
  rewrite (handle_invoke_results _ _ _ _ _ _ _ _ _ _ _ _ _ Hinv Hh).
  rewrite list_lookup_fmap, Hr. cbn [fmap option_fmap option_map]. f_equal.
  unfold handler_callback.
  destruct (Z.eqb_spec (Result.status result) (STATUS_SUCCESS consts)) as [->|]; reflexivity.
Qed.

(** X6: the slices a handler receives are never longer than the counts the
    header declares, nor than the message. *)
Theorem handler_slices_bounded msg commandId commandParams commandData
    commandParamsOffset commandDataOffset connection server (name : string) call :
  (name, call) ∈ invocations
    (handle consts subCmdHandlers msg commandId commandParams commandData
       commandParamsOffset commandDataOffset connection server) ->
  let v := parse_params commandParams in
  Buffer.len (h_commandParams call) <= num (parameterCount v)
  /\ Buffer.len (h_commandParams call) <= Buffer.len (buf msg)
  /\ Buffer.len (h_commandData call) <= num (dataCount v)
  /\ Buffer.len (h_commandData call) <= Buffer.len (buf msg).
Proof.
  intros Hinv v. apply handle_invoke_inv in Hinv as (_ & _ & -> & _).
  unfold call_of. cbn [h_commandParams h_commandData]. fold v.
  destruct (parse_params_nonneg commandParams) as (_ & _ & Hpc & Hpo & Hdc & Hdo & _).
  fold v in Hpc, Hpo, Hdc, Hdo.
  pose proof (len_nonneg (buf msg)).
  rewrite !slice_len, !adjustOffset_nonneg by lia. lia.
Qed.

(** X7: when the ranges the header declares lie inside the message, the
    handler receives exactly the declared bytes: [parameterCount] bytes from
    [parameterOffset] on and [dataCount] bytes from [dataOffset] on. *)
Theorem handler_receives_declared_bytes msg commandId commandParams commandData
    commandParamsOffset commandDataOffset connection server (name : string) call :
  (name, call) ∈ invocations
    (handle consts subCmdHandlers msg commandId commandParams commandData
       commandParamsOffset commandDataOffset connection server) ->
  let v := parse_params commandParams in
  num (parameterOffset v) + num (parameterCount v) <= Buffer.len (buf msg) ->
  num (dataOffset v) + num (dataCount v) <= Buffer.len (buf msg) ->
  h_commandParams call
  = take (Z.to_nat (num (parameterCount v)))
      (drop (Z.to_nat (num (parameterOffset v))) (buf msg))
  /\ Buffer.len (h_commandParams call) = num (parameterCount v)
  /\ h_commandData call
     = take (Z.to_nat (num (dataCount v)))
         (drop (Z.to_nat (num (dataOffset v))) (buf msg))
  /\ Buffer.len (h_commandData call) = num (dataCount v).
Proof.
  intros Hinv v Hp Hd. apply handle_invoke_inv in Hinv as (_ & _ & -> & _).
  unfold call_of. cbn [h_commandParams h_commandData]. fold v.
  destruct (parse_params_nonneg commandParams) as (_ & _ & Hpc & Hpo & Hdc & Hdo & _).
  fold v in Hpc, Hpo, Hdc, Hdo.
  split; [apply slice_inside; lia|].
  split; [apply slice_inside_len; lia|].
  split; [apply slice_inside; lia|].
  apply slice_inside_len; lia.
Qed.

End HandleMore.

(** ** Of the header decoder *)

Lemma field_at_skip (x rest : Buffer.t) (o k : Z) :
  Z.of_nat (length x) <= o ->
  field_at (x ++ rest) o k = field_at rest (o - Z.of_nat (length x)) k.
Proof.
  intros Ho. unfold field_at. rewrite drop_app_ge by lia.
  do 3 f_equal. lia.
Qed.

Lemma field_at_found (n : nat) (v : Z) (rest : Buffer.t) (o k : Z) :
  o = 0 -> k = Z.of_nat n ->
  field_at (le_bytes n v ++ rest) o k = v mod 256 ^ Z.of_nat n.
Proof.
  intros -> ->. unfold field_at. rewrite Nat2Z.id. change (Z.to_nat 0) with 0%nat.
  rewrite drop_0, take_app_length' by (symmetry; apply le_bytes_length).
  apply decodeLEu_le_bytes.
Qed.

Lemma field_at_app_l (b extra : Buffer.t) (o k : Z) :
  0 <= o -> 0 <= k -> o + k <= Buffer.len b ->
  field_at (b ++ extra) o k = field_at b o k.
Proof.
  intros Ho Hk Hlen. unfold field_at, Buffer.len in *.
  rewrite drop_app_le by lia.
  rewrite take_app_le by (rewrite length_drop; lia). reflexivity.
Qed.

Lemma request_params_split (maxSetupCount totalParameterCount totalDataCount
    maxParameterCount maxDataCount parameterCount parameterOffset
    dataCount dataOffset setupCount function : Z) (setup : Buffer.t) :
  exists header,
    length header = 38%nat
    /\ request_params maxSetupCount totalParameterCount totalDataCount
         maxParameterCount maxDataCount parameterCount parameterOffset
         dataCount dataOffset setupCount function setup
       = header ++ setup.
Proof.
  unfold request_params. eexists. split; [|rewrite !app_assoc; reflexivity].
  unfold u8, u16le, u32le, filler.
  rewrite !length_app, !le_bytes_length, length_replicate. reflexivity.
Qed.

Ltac find_field :=
  unfold request_params, u8, u16le, u32le, filler;
  repeat (rewrite field_at_skip
            by (rewrite ?le_bytes_length, ?length_replicate; cbn; lia);
          rewrite ?le_bytes_length, ?length_replicate);
  apply field_at_found; cbn; lia.

(** X8: decoding the parameter words written field by field in little-endian
    order gives every field back, modulo its width, and as [setup] the first
    [2 * setupCount] bytes of what follows the fixed header. *)
Theorem parse_params_of_request (maxSetupCount_ totalParameterCount_ totalDataCount_
    maxParameterCount_ maxDataCount_ parameterCount_ parameterOffset_
    dataCount_ dataOffset_ setupCount_ function_ : Z) (setup : Buffer.t) :
  parse_params
    (request_params maxSetupCount_ totalParameterCount_ totalDataCount_
       maxParameterCount_ maxDataCount_ parameterCount_ parameterOffset_
       dataCount_ dataOffset_ setupCount_ function_ setup)
  = {| maxSetupCount := Some (maxSetupCount_ mod 2 ^ 8);
       totalParameterCount := Some (totalParameterCount_ mod 2 ^ 32);
       totalDataCount := Some (totalDataCount_ mod 2 ^ 32);
       maxParameterCount := Some (maxParameterCount_ mod 2 ^ 32);
       maxDataCount := Some (maxDataCount_ mod 2 ^ 32);
       parameterCount := Some (parameterCount_ mod 2 ^ 32);
       parameterOffset := Some (parameterOffset_ mod 2 ^ 32);
       dataCount := Some (dataCount_ mod 2 ^ 32);
       dataOffset := Some (dataOffset_ mod 2 ^ 32);
       setupCount := Some (setupCount_ mod 2 ^ 8);
       function := Some (function_ mod 2 ^ 16);
       setup := take (Z.to_nat (2 * (setupCount_ mod 2 ^ 8))) setup |}.
Proof.
  destruct (request_params_split maxSetupCount_ totalParameterCount_ totalDataCount_
              maxParameterCount_ maxDataCount_ parameterCount_ parameterOffset_
              dataCount_ dataOffset_ setupCount_ function_ setup) as (header & Hh & Hsplit).
  rewrite parse_params_full
    by (rewrite Hsplit; unfold Buffer.len; rewrite length_app; lia).
  assert (Hsc : field_at (request_params maxSetupCount_ totalParameterCount_
                            totalDataCount_ maxParameterCount_ maxDataCount_ parameterCount_
                            parameterOffset_ dataCount_ dataOffset_ setupCount_ function_ setup)
                  35 1 = setupCount_ mod 2 ^ 8) by find_field.
  rewrite Hsc.
  f_equal; try (f_equal; find_field).
  all: rewrite Hsplit, drop_app_length' by assumption; reflexivity.
Qed.

Lemma word_bound (bytes : Z) (buffer : Buffer.t) (offset offset' : Z) (r : option Z) :
  0 <= offset -> 0 <= bytes ->
  binary.word bytes buffer offset = (r, offset') ->
  0 <= num r < 256 ^ bytes /\ 0 <= offset'.
Proof.
  intros Ho Hb H. destruct r as [v|].
  - apply word_Some in H as (-> & _ & _ & Hv); cbn; lia.
  - apply word_None in H as [-> _]. cbn. split; [|lia].
    split; [lia|]. apply Z.pow_pos_nonneg; lia.
Qed.

(** X9: whatever the buffer, the decoded counts and offsets are 32-bit
    values, [setupCount] is below 256 and the function code below 65536;
    [setup] never has more than [2 * setupCount] bytes, hence never more than
    510, and never more than the buffer has. *)
Theorem parse_params_bounds (commandParams : Buffer.t) :
  let v := parse_params commandParams in
  0 <= num (totalParameterCount v) < 2 ^ 32
  /\ 0 <= num (totalDataCount v) < 2 ^ 32
  /\ 0 <= num (parameterCount v) < 2 ^ 32
  /\ 0 <= num (parameterOffset v) < 2 ^ 32
  /\ 0 <= num (dataCount v) < 2 ^ 32
  /\ 0 <= num (dataOffset v) < 2 ^ 32
  /\ 0 <= num (setupCount v) < 2 ^ 8
  /\ 0 <= num (function v) < 2 ^ 16
  /\ Buffer.len (setup v) <= 2 * num (setupCount v)
  /\ Buffer.len (setup v) <= 510
  /\ Buffer.len (setup v) <= Buffer.len commandParams.
Proof.
  cbv zeta. parse_chain commandParams. cbn -[num Z.pow].
  repeat match goal with
  | E : binary.word _ _ ?o = (_, _) |- _ =>
    apply word_bound in E as [? ?]; [| lia | lia]
  end.
  change (256 ^ 4) with (2 ^ 32) in *. change (256 ^ 1) with (2 ^ 8) in *.
  change (256 ^ 2) with (2 ^ 16) in *.
  repeat (split; [lia|]).
  pose proof (len_nonneg commandParams).
  rewrite slice_len, !adjustOffset_nonneg by lia. lia.
Qed.

(** X10: bytes that follow the [2 * setupCount] setup bytes are not looked
    at: a buffer that holds the whole header decodes the same with anything
    appended to it. *)
Theorem parse_params_ignores_trailing (commandParams extra : Buffer.t) :
  38 + 2 * num (setupCount (parse_params commandParams)) <= Buffer.len commandParams ->
  parse_params (commandParams ++ extra) = parse_params commandParams.
Proof.
  intros Hlen.
  destruct (parse_params_nonneg commandParams) as (_ & _ & _ & _ & _ & _ & Hsc).
  assert (H38 : 38 <= Buffer.len commandParams) by lia.
  rewrite (parse_params_full commandParams) in * by assumption.
  cbn [setupCount num default from_option id] in *.
  rewrite parse_params_full
    by (unfold Buffer.len in *; rewrite length_app; lia).
  rewrite !field_at_app_l by lia.
  f_equal. unfold Buffer.len in *.
  rewrite drop_app_le by lia.
  rewrite take_app_le by (rewrite length_drop; lia). reflexivity.
Qed.

Lemma parse_params_short_function (commandParams : Buffer.t) :
  Buffer.len commandParams < 6 -> function (parse_params commandParams) = None.
Proof.
  intros Hlen. pose proof (len_nonneg commandParams).
  parse_chain commandParams. cbn.
  match goal with |- ?r = None => destruct r as [v|] eqn:Hr; [exfalso|reflexivity] end.
  subst.
  repeat match goal with
  | r : option Z |- _ => destruct r
  end;
  word_facts; lia.
Qed.

Section ShortAndResponse.

Context {Connection Server : Type}.
Variable consts : Consts.
Variable subCmdHandlers : gmap string (@Handler Connection Server).

Implicit Types (msg : Msg) (commandParams commandData : Buffer.t).
Implicit Types (connection : Connection) (server : Server).

(** X11: with fewer than 6 bytes of parameters, an empty buffer included,
    no function code can be read; whatever the tables and the registry
    hold, [handle] then ends with the [ReferenceError] of line 92 and [cb]
    is never called. *)
Theorem handle_short_params_throws msg commandId commandParams commandData
    commandParamsOffset commandDataOffset connection server :
  Buffer.len commandParams < 6 ->
  handle consts subCmdHandlers msg commandId commandParams commandData
    commandParamsOffset commandDataOffset connection server
  = throws (ReferenceError "self").
Proof.
  intros Hlen. apply handle_unknown.
  rewrite parse_params_short_function by assumption. reflexivity.
Qed.

(** X12: the offsets written in a response point at the payloads: counted
    from [dataOffset], where the data buffer starts in the message, the
    bytes from [subParamsOffset] on are [params] and the bytes from
    [subDataOffset] on are [data], and the data buffer ends with them. *)
Theorem response_offsets_locate_payloads (result : Result.t) :
  let p := Result.params result in
  let d := Result.data result in
  let s := default utils.EMPTY_BUFFER (Result.setup result) in
  let l := layout consts p d s in
  let out := Result.data (build_response consts result) in
  Buffer.slice out (subParamsOffset l - l_dataOffset l)
    (subParamsOffset l - l_dataOffset l + Buffer.len p) = p
  /\ Buffer.slice out (subDataOffset l - l_dataOffset l)
       (subDataOffset l - l_dataOffset l + Buffer.len d) = d
  /\ Buffer.len out = subDataOffset l + Buffer.len d - l_dataOffset l.
Proof.
  intros p d s l out. subst out.
  rewrite build_response_data. fold p d s l.
  assert (H1 : 0 <= pad1 l < 4) by apply calculatePadLength_range.
  assert (H2 : 0 <= pad2 l < 4) by apply calculatePadLength_range.
  assert (Hsp : subParamsOffset l - l_dataOffset l = pad1 l)
    by (subst l; unfold layout; cbn; lia).
  assert (Hsd : subDataOffset l - l_dataOffset l = pad1 l + Buffer.len p + pad2 l)
    by (subst l; unfold layout; cbn; lia).
  rewrite Hsp, Hsd.
  set (out := filler (pad1 l) ++ p ++ filler (pad2 l) ++ d).
  assert (Hlen : Buffer.len out = pad1 l + Buffer.len p + pad2 l + Buffer.len d).
  { subst out. unfold Buffer.len, filler.
    rewrite !length_app, !length_replicate. lia. }
  pose proof (len_nonneg p). pose proof (len_nonneg d).
  split; [|split].
  - rewrite slice_inside by lia. subst out. unfold filler.
    rewrite drop_app_length' by (rewrite length_replicate; reflexivity).
    apply take_app_length'. unfold Buffer.len. lia.
  - rewrite slice_inside by lia. subst out. unfold filler.
    rewrite !app_assoc.
    rewrite drop_app_length'
      by (rewrite !length_app, !length_replicate; unfold Buffer.len; lia).
    apply take_ge. unfold Buffer.len. lia.
  - lia.
Qed.

(** X13: read back with the decoder of requests, the 32-bit words of a
    response give the lengths and offsets of its payloads modulo 2^32;
    byte 35 gives the setup length modulo 256, and the setup bytes follow
    from byte 36 on. *)
Theorem response_params_read_back (result : Result.t) :
  let p := Result.params result in
  let d := Result.data result in
  let s := default utils.EMPTY_BUFFER (Result.setup result) in
  let l := layout consts p d s in
  let out := Result.params (build_response consts result) in
  field_at out 3 4 = Buffer.len p mod 2 ^ 32
  /\ field_at out 7 4 = Buffer.len d mod 2 ^ 32
  /\ field_at out 11 4 = Buffer.len p mod 2 ^ 32
  /\ field_at out 15 4 = subParamsOffset l mod 2 ^ 32
  /\ field_at out 19 4 = 0
  /\ field_at out 23 4 = Buffer.len d mod 2 ^ 32
  /\ field_at out 27 4 = subDataOffset l mod 2 ^ 32
  /\ field_at out 31 4 = 0
  /\ field_at out 35 1 = Buffer.len s mod 2 ^ 8
  /\ drop 36 out = s.
Proof.
  intros p d s l out. subst out.
  rewrite build_response_params. fold p d s.
  unfold response_fixed. fold l.
  change (Buffer.byte_of_Z (Buffer.len s) :: s)
    with ([Buffer.byte_of_Z (Buffer.len s)] ++ s).
  rewrite <- !app_assoc, <- u8_byte.
  repeat (split; [find_field|]).
  rewrite !app_assoc.
  apply drop_app_length'.
  unfold u8, u32le, filler.
  rewrite !length_app, !le_bytes_length, length_replicate. reflexivity.
Qed.

(** X14: both payloads of a response start on a 4-byte boundary of the
    message. *)
Theorem response_payloads_aligned (params data setup : Buffer.t) :
  let l := layout consts params data setup in
  subParamsOffset l mod 4 = 0 /\ subDataOffset l mod 4 = 0.
Proof.
  cbv zeta. unfold layout. cbn [subParamsOffset subDataOffset].
  split; apply calculatePadLength_aligned.
Qed.

End ShortAndResponse.

(** X15: a 32-bit word written by [put] and read by the decoder of [binary]
    is the value modulo 2^32, whatever the value, negative or beyond 32 bits;
    a byte written by [word8] is the value modulo 256. *)
Theorem put_then_decode (v : Z) :
  binary.decodeLEu (put.buffer [put.word32le v]) = v mod 2 ^ 32
  /\ binary.decodeLEu (put.buffer [put.word8 v]) = v mod 2 ^ 8.
Proof.
  rewrite !buffer_cons, buffer_nil, !app_nil_r.
  rewrite render_word32le, render_word8.
  split; [apply (decodeLEu_le_bytes 4)|].
  rewrite <- u8_byte. apply (decodeLEu_le_bytes 1).
Qed.

(** ** Of the handler registry *)

Lemma string_length_units (s : string) :
  String.length s = length (list_ascii_of_string s).
Proof. induction s as [|c s IH]; [reflexivity|]. cbn. f_equal. exact IH. Qed.

Lemma units_app (s1 s2 : string) :
  list_ascii_of_string (s1 ++ s2)
  = (list_ascii_of_string s1 ++ list_ascii_of_string s2)%list.
Proof.
  induction s1 as [|c s1 IH]; [reflexivity|].
  change (list_ascii_of_string (String c (s1 ++ s2))
          = (c :: list_ascii_of_string s1 ++ list_ascii_of_string s2)%list).
  cbn [list_ascii_of_string]. f_equal. exact IH.
Qed.

Lemma string_of_units_app (l1 l2 : list Ascii.ascii) :
  string_of_list_ascii (l1 ++ l2)%list
  = (string_of_list_ascii l1 ++ string_of_list_ascii l2)%string.
Proof.
  induction l1 as [|c l1 IH]; [reflexivity|].
  change (string_of_list_ascii (c :: (l1 ++ l2)%list)
          = String c (string_of_list_ascii l1 ++ string_of_list_ascii l2)).
  cbn [string_of_list_ascii]. f_equal. exact IH.
Qed.

Lemma string_app_inv_tail (s1 s2 t : string) :
  (s1 ++ t)%string = (s2 ++ t)%string -> s1 = s2.
Proof.
  intros H. apply (f_equal list_ascii_of_string) in H.
  rewrite !units_app in H. apply app_inv_tail in H.
  rewrite <- (string_of_list_ascii_of_string s1), H.
  apply string_of_list_ascii_of_string.
Qed.

(** The test of line 42 and the name of line 43: a name passes the test
    exactly when it is some [k] followed by [.js], and [k] is then what
    [slice(0, -3)] leaves. *)
Lemma js_suffix_iff (f k : string) :
  JsString.substr f (-3) = ".js"%string /\ JsString.slice f 0 (-3) = k
  <-> f = (k ++ ".js")%string.
Proof.
  unfold JsString.substr, JsString.slice, JsString.index.
  rewrite string_length_units.
  set (l := list_ascii_of_string f).
  change (-3 <? 0) with true. change (0 <? 0) with false. cbv iota.
  replace (Z.to_nat (Z.min 0 (Z.of_nat (length l)))) with 0%nat by lia.
  replace (Z.to_nat (Z.max (Z.of_nat (length l) + -3) 0)) with (length l - 3)%nat by lia.
  rewrite Nat.sub_0_r, drop_0.
  split.
  - intros [Hsuf Hk].
    rewrite <- (string_of_list_ascii_of_string f). fold l.
    rewrite <- (take_drop (length l - 3) l), string_of_units_app.
    rewrite Hsuf, Hk. reflexivity.
  - intros ->. subst l. rewrite units_app, length_app.
    change (length (list_ascii_of_string ".js")) with 3%nat.
    replace (length (list_ascii_of_string k) + 3 - 3)%nat
      with (length (list_ascii_of_string k)) by lia.
    rewrite drop_app_length, take_app_length.
    split; [reflexivity|]. apply string_of_list_ascii_of_string.
Qed.

Section RegistryFacts.

Context {Connection Server : Type}.
Variable require : string -> @Handler Connection Server.

Implicit Types (m : gmap string (@Handler Connection Server)).
Implicit Types (h : @Handler Connection Server).

Lemma load_entry_lookup m (entry : Dirent) (k : string) h :
  load_entry require m entry !! k = Some h
  <-> (registers k entry /\ h = require k)
      \/ (~ registers k entry /\ m !! k = Some h).
Proof.
  unfold load_entry, registers.
  destruct (d_isDirectory entry).
  { split; [intros H; right; split; [intros [[=] _]|exact H] | intros [[[[=] _] _]|[_ H]]; exact H]. }
  destruct (decide (JsString.substr (d_name entry) (-3) = ".js"%string)) as [Hsuf|Hsuf].
  - pose proof (proj1 (js_suffix_iff (d_name entry) _) (conj Hsuf eq_refl)) as Hname.
    set (k' := JsString.slice (d_name entry) 0 (-3)) in *.
    destruct (decide (k' = k)) as [->|Hne].
    + rewrite lookup_insert_eq. split.
      * intros [= <-]. left. auto.
      * intros [[_ ->]|[Hn _]]; [reflexivity|]. exfalso. apply Hn. auto.
    + rewrite lookup_insert_ne by assumption. split.
      * intros H. right. split; [|exact H]. intros [_ Hk].
        rewrite Hname in Hk. apply string_app_inv_tail in Hk. contradiction.
      * intros [[[_ Hk] _]|[_ H]]; [|exact H].
        rewrite Hname in Hk. apply string_app_inv_tail in Hk. contradiction.
  - split.
    + intros H. right. split; [|exact H]. intros [_ Hk].
      apply Hsuf. apply (js_suffix_iff (d_name entry) k). exact Hk.
    + intros [[[_ Hk] _]|[_ H]]; [|exact H].
      exfalso. apply Hsuf. apply (js_suffix_iff (d_name entry) k). exact Hk.
Qed.

Lemma registers_somewhere_dec (files : list Dirent) (k : string) :
  (exists entry, entry ∈ files /\ registers k entry)
  \/ ~ (exists entry, entry ∈ files /\ registers k entry).
Proof.
  induction files as [|e files IH].
  - right. intros (? & Hin & _). inversion Hin.
  - destruct IH as [(x & Hin & Hx)|Hno].
    { left. exists x. split; [right; exact Hin|exact Hx]. }
    destruct (decide (d_isDirectory e = false)) as [Hd|Hd];
      [destruct (decide (d_name e = (k ++ ".js")%string)) as [Hn|Hn]|].
    + left. exists e. split; [left|split; assumption].
    + right. intros (x & Hin & Hx).
      apply elem_of_cons in Hin as [->|Hin]; [destruct Hx; contradiction|].
      apply Hno. eauto.
    + right. intros (x & Hin & Hx).
      apply elem_of_cons in Hin as [->|Hin]; [destruct Hx; contradiction|].
      apply Hno. eauto.
Qed.

Lemma foldl_load_lookup (files : list Dirent) m (k : string) h :
  foldl (load_entry require) m files !! k = Some h
  <-> ((exists entry, entry ∈ files /\ registers k entry) /\ h = require k)
      \/ (~ (exists entry, entry ∈ files /\ registers k entry) /\ m !! k = Some h).
Proof.
  revert m. induction files as [|e files IH]; intros m.
  - cbn. split.
    + intros H. right. split; [|exact H]. intros (? & Hin & _). inversion Hin.
    + intros [[(? & Hin & _) _]|[_ H]]; [inversion Hin | exact H].
  - cbn [foldl]. rewrite IH, load_entry_lookup. split.
    + intros [[(x & Hin & Hx) ->]|[Hno [[He ->]|[He Hm]]]].
      * left. split; [|reflexivity]. exists x. split; [right; exact Hin|exact Hx].
      * left. split; [|reflexivity]. exists e. split; [left|exact He].
      * right. split; [|exact Hm]. intros (x & Hin & Hx).
        apply elem_of_cons in Hin as [->|Hin]; [contradiction|].
        apply Hno. eauto.
    + intros [[(x & Hin & Hx) ->]|[Hno Hm]].
      * destruct (registers_somewhere_dec files k) as [Hex|Hnex].
        -- left. auto.
        -- right. split; [exact Hnex|]. left. split; [|reflexivity].
           apply elem_of_cons in Hin as [->|Hin]; [exact Hx|].
           exfalso. apply Hnex. eauto.
      * right. split.
        -- intros (x & Hin & Hx). apply Hno. exists x. split; [right; exact Hin|exact Hx].
        -- right. split; [|exact Hm]. intros He. apply Hno. exists e. split; [left|exact He].
Qed.

Lemma registry_lookup_aux (files : list Dirent) (k : string) h :
  loadSubCmdHandlers require files !! k = Some h
  <-> (exists entry, entry ∈ files /\ registers k entry) /\ h = require k.
Proof.
  unfold loadSubCmdHandlers. rewrite foldl_load_lookup, lookup_empty.
  split; [intros [H|[_ [=]]]; exact H | auto].
Qed.

End RegistryFacts.

Section RegistryClaims.

Context {Connection Server : Type}.
Variable consts : Consts.
Variable require : string -> @Handler Connection Server.

Implicit Types (msg : Msg) (commandParams commandData : Buffer.t).
Implicit Types (connection : Connection) (server : Server).
Implicit Types (h : @Handler Connection Server).

(** X16: take a directory with no file [__proto__.js] and a name [k] that
    is no property name of [Object.prototype]. After [loadSubCmdHandlers],
    [k] has a handler exactly when the directory lists a file, not a
    directory, named [k.js], and the handler is then the module required
    under [k]; when no such file is listed, the lookup of [k] finds nothing
    at all. Directories and files without the [.js] suffix register
    nothing. *)
Theorem registry_lookup (files : list Dirent) (k : string) h :
  k ∉ Object_prototype_names ->
  ~ (exists entry, entry ∈ files /\ registers "__proto__" entry) ->
  (loadSubCmdHandlers require files !! k = Some h
   <-> (exists entry, entry ∈ files /\ registers k entry) /\ h = require k)
  /\ ((exists entry, entry ∈ files /\ registers k entry)
      \/ unregistered (loadSubCmdHandlers require files) k).
Proof.
  intros Hk Hproto. split; [apply registry_lookup_aux|].
  destruct (registers_somewhere_dec files k) as [Hex|Hno]; [left; exact Hex|].
  right. split; [|split; [exact Hk|]].
  - apply eq_None_not_Some. intros [h' Hh].
    apply registry_lookup_aux in Hh as [Hex _]. contradiction.
  - apply eq_None_not_Some. intros [h' Hh].
    apply registry_lookup_aux in Hh as [Hex _]. contradiction.
Qed.

(** X17: the registry does not depend on the order in which the directory
    is listed. *)
Theorem registry_order_irrelevant (files files' : list Dirent) :
  files ≡ₚ files' ->
  loadSubCmdHandlers require files = loadSubCmdHandlers require files'.
Proof.
  intros Hperm. apply map_eq. intros k. apply option_eq. intros h.
  rewrite !registry_lookup_aux.
  split; intros [(e & Hin & He) ->]; (split; [|reflexivity]); exists e;
    (split; [|exact He]).
  - rewrite <- Hperm. exact Hin.
  - rewrite Hperm. exact Hin.
Qed.

(** X18: with the registry loaded from a directory that has neither a file
    [name.js] nor a file [__proto__.js], every complete request that reaches
    line 127 for the subcommand [name], a name that is no property name of
    [Object.prototype], is answered at once with [STATUS_NOT_IMPLEMENTED]
    and the request's own buffers. *)
Theorem unlisted_subcommand_not_implemented (files : list Dirent)
    msg commandId commandParams commandData
    commandParamsOffset commandDataOffset connection server (name c : string) :
  subCommand_of consts (function (parse_params commandParams)) = Some name ->
  COMMAND_TO_STRING consts !! commandId = Some c ->
  chunked (parse_params commandParams) = false ->
  name ∉ Object_prototype_names ->
  ~ (exists entry, entry ∈ files /\ registers "__proto__" entry) ->
  ~ (exists entry, entry ∈ files /\ registers name entry) ->
  unregistered (loadSubCmdHandlers require files) name
  /\ handle consts (loadSubCmdHandlers require files) msg commandId
       commandParams commandData commandParamsOffset commandDataOffset connection server
     = returns [Callback {| Result.status := STATUS_NOT_IMPLEMENTED consts;
                            Result.params := commandParams;
                            Result.data := commandData;
                            Result.setup := None |}].
Proof.
  intros Hn Hc Hk Hname Hproto Hno.
  assert (Hnone : forall k, ~ (exists entry, entry ∈ files /\ registers k entry) ->
                    loadSubCmdHandlers require files !! k = None).
  { intros k Hk'. apply eq_None_not_Some. intros [h Hh].
    apply registry_lookup_aux in Hh as [Hex _]. contradiction. }
  split; [split; [|split]; auto|].
  erewrite handle_no_handler by (try eassumption; auto).
  reflexivity.
Qed.

(** X19: with the registry loaded from a directory that lists a file
    [name.js], a complete request for the subcommand [name] invokes the
    module required under [name], once, and [cb] is called once for each
    result of that module. *)
Theorem listed_subcommand_dispatched (files : list Dirent)
    msg commandId commandParams commandData
    commandParamsOffset commandDataOffset connection server
    (name c : string) (entry : Dirent) :
  subCommand_of consts (function (parse_params commandParams)) = Some name ->
  COMMAND_TO_STRING consts !! commandId = Some c ->
  chunked (parse_params commandParams) = false ->
  entry ∈ files -> registers name entry ->
  let o := handle consts (loadSubCmdHandlers require files) msg commandId
             commandParams commandData commandParamsOffset commandDataOffset
             connection server in
  let call := call_of msg commandParams connection server in
  invocations o = [(name, call)]
  /\ cb_results o
     = handler_callback consts commandParams commandData <$> require name call
  /\ thrown o = None.
Proof.
  intros Hn Hc Hk Hin He o call. subst o call.
  assert (Hh : loadSubCmdHandlers require files !! name = Some (require name)).
  { apply registry_lookup_aux. split; [eauto|reflexivity]. }
  erewrite handle_dispatch by eassumption. cbv zeta.
  rewrite invocations_dispatch, cb_results_dispatch. auto.
Qed.

End RegistryClaims.

(** *** Instances of the further properties *)

Lemma sample_handlers_complete_once (name : string) (handler : @Handler unit unit)
    (call : @HandlerCall unit unit) :
  Sample.subCmdHandlers !! name = Some handler -> length (handler call) = 1%nat.
Proof.
  intros H. unfold Sample.subCmdHandlers in H.
  apply lookup_insert_Some in H as [[_ <-]|[_ H]]; [reflexivity|].
  apply lookup_insert_Some in H as [[_ <-]|[_ H]]; [reflexivity|].
  apply lookup_singleton_Some in H as [_ <-]. reflexivity.
Qed.

Lemma sample_lookup_settled :
  lookup_settled Sample.consts Sample.subCmdHandlers (Sample.request 2).
Proof.
  intros name Hname. vm_compute in Hname. injection Hname as <-.
  left. exists Sample.ioctl. vm_compute. reflexivity.
Qed.

Lemma handle_returns_iff_witness :
  thrown (Sample.handle (Sample.request 2) Sample.commandData 33 73 tt tt) = None
  <-> is_Some (subCommand_of Sample.consts (function (parse_params (Sample.request 2))))
      /\ is_Some (COMMAND_TO_STRING Sample.consts !! 0xA0).
Proof.
  exact (handle_returns_iff Sample.consts Sample.subCmdHandlers Sample.msg 0xA0
           (Sample.request 2) Sample.commandData 33 73 tt tt
           sample_lookup_settled).
Defined.

Lemma cb_called_once_iff_witness :
  let o := Sample.handle (Sample.request 2) Sample.commandData 33 73 tt tt in
  (length (cb_results o) = 1%nat
   <-> is_Some (subCommand_of Sample.consts (function (parse_params (Sample.request 2))))
       /\ is_Some (COMMAND_TO_STRING Sample.consts !! 0xA0))
  /\ (length (cb_results o) = 1%nat \/ cb_results o = []).
Proof.
  exact (cb_called_once_iff Sample.consts Sample.subCmdHandlers Sample.msg 0xA0
           (Sample.request 2) Sample.commandData 33 73 tt tt
           sample_handlers_complete_once sample_lookup_settled).
Defined.

Lemma handler_status_forwarded_witness :
  let o := Sample.handle (Sample.request 4) Sample.commandData 33 73 tt tt in
  let o' := Sample.handle (Sample.request 2) Sample.commandData 33 73 tt tt in
  Result.status <$> cb_results o !! 0%nat = Some Sample.STATUS_ACCESS_DENIED
  /\ Result.status <$> cb_results o' !! 0%nat = Some 0.
Proof.
  cbv zeta. split.
  - assert (H1 : ("notify_change"%string, call_of Sample.msg (Sample.request 4) tt tt)
                 ∈ invocations
                     (Sample.handle (Sample.request 4) Sample.commandData 33 73 tt tt))
      by (vm_compute; constructor).
    exact (handler_status_forwarded Sample.consts Sample.subCmdHandlers
             Sample.msg 0xA0 (Sample.request 4) Sample.commandData 33 73 tt tt
             "notify_change" _ Sample.notify_change 0 _ H1 eq_refl eq_refl).
  - assert (H1 : ("ioctl"%string, call_of Sample.msg (Sample.request 2) tt tt)
                 ∈ invocations
                     (Sample.handle (Sample.request 2) Sample.commandData 33 73 tt tt))
      by (vm_compute; constructor).
    exact (handler_status_forwarded Sample.consts Sample.subCmdHandlers
             Sample.msg 0xA0 (Sample.request 2) Sample.commandData 33 73 tt tt
             "ioctl" _ Sample.ioctl 0 _ H1 eq_refl eq_refl).
Defined.

Lemma handler_slices_bounded_witness :
  let call := call_of Sample.msg Sample.request_far tt tt in
  ("ioctl"%string, call)
    ∈ invocations (Sample.handle Sample.request_far Sample.commandData 33 73 tt tt)
  /\ Buffer.len (h_commandParams call) <= 4
  /\ Buffer.len (h_commandParams call) <= 16
  /\ Buffer.len (h_commandData call) <= 4
  /\ Buffer.len (h_commandData call) <= 16.
Proof.
  cbv zeta.
  assert (H1 : ("ioctl"%string, call_of Sample.msg Sample.request_far tt tt)
               ∈ invocations
                   (Sample.handle Sample.request_far Sample.commandData 33 73 tt tt))
    by (vm_compute; constructor).
  split; [exact H1|].
  exact (handler_slices_bounded Sample.consts Sample.subCmdHandlers
           Sample.msg 0xA0 Sample.request_far Sample.commandData 33 73 tt tt
           "ioctl" _ H1).
Defined.

Lemma handler_receives_declared_bytes_witness :
  let call := call_of Sample.msg (Sample.request 2) tt tt in
  ("ioctl"%string, call)
    ∈ invocations (Sample.handle (Sample.request 2) Sample.commandData 33 73 tt tt)
  /\ h_commandParams call = take 4 (drop 4 (buf Sample.msg))
  /\ Buffer.len (h_commandParams call) = 4
  /\ h_commandData call = take 4 (drop 8 (buf Sample.msg))
  /\ Buffer.len (h_commandData call) = 4.
Proof.
  cbv zeta.
  assert (H1 : ("ioctl"%string, call_of Sample.msg (Sample.request 2) tt tt)
               ∈ invocations
                   (Sample.handle (Sample.request 2) Sample.commandData 33 73 tt tt))
    by (vm_compute; constructor).
  split; [exact H1|].
  exact (handler_receives_declared_bytes Sample.consts Sample.subCmdHandlers
           Sample.msg 0xA0 (Sample.request 2) Sample.commandData 33 73 tt tt
           "ioctl" _ H1
           ltac:(vm_compute; discriminate) ltac:(vm_compute; discriminate)).
Defined.

Lemma parse_params_ignores_trailing_witness :
  38 + 2 * num (setupCount (parse_params (Sample.request 2)))
    <= Buffer.len (Sample.request 2)
  /\ parse_params (Sample.request 2 ++ [Byte.xff; Byte.xff])
     = parse_params (Sample.request 2).
Proof.
  assert (H : 38 + 2 * num (setupCount (parse_params (Sample.request 2)))
              <= Buffer.len (Sample.request 2))
    by (vm_compute; discriminate).
  split; [exact H|].
  exact (parse_params_ignores_trailing (Sample.request 2) [Byte.xff; Byte.xff] H).
Defined.

Lemma handle_short_params_throws_witness :
  Buffer.len ([] : Buffer.t) < 6
  /\ Sample.handle [] Sample.commandData 33 73 tt tt = throws (ReferenceError "self").
Proof.
  assert (H : Buffer.len ([] : Buffer.t) < 6) by (vm_compute; reflexivity).
  split; [exact H|].
  exact (handle_short_params_throws Sample.consts Sample.subCmdHandlers
           Sample.msg 0xA0 [] Sample.commandData 33 73 tt tt H).
Defined.

Lemma registry_order_irrelevant_witness :
  loadSubCmdHandlers SampleDir.require SampleDir.files
  = loadSubCmdHandlers SampleDir.require (reverse SampleDir.files).
Proof.
  apply (registry_order_irrelevant SampleDir.require
           SampleDir.files (reverse SampleDir.files)).
  symmetry. apply reverse_Permutation.
Defined.

Lemma sample_dir_not_listed (k : string) :
  k = "rename"%string \/ k = "__proto__"%string ->
  ~ (exists entry, entry ∈ SampleDir.files /\ registers k entry).
Proof.
  intros Hk (entry & Hin & _ & Hname). unfold SampleDir.files in Hin.
  repeat (apply elem_of_cons in Hin as [->|Hin];
          [destruct Hk as [->| ->]; vm_compute in Hname; discriminate|]).
  inversion Hin.
Qed.

Lemma plain_names :
  ("rename"%string ∉ Object_prototype_names)
  /\ ("ioctl"%string ∉ Object_prototype_names).
Proof.
  split; intros H; unfold Object_prototype_names in H;
    repeat (apply elem_of_cons in H as [H|H]; [discriminate H|]);
    inversion H.
Qed.

Lemma registry_lookup_witness :
  (loadSubCmdHandlers SampleDir.require SampleDir.files !! "ioctl"%string
     = Some Sample.ioctl
   <-> (exists entry, entry ∈ SampleDir.files /\ registers "ioctl" entry)
       /\ Sample.ioctl = SampleDir.require "ioctl")
  /\ ((exists entry, entry ∈ SampleDir.files /\ registers "ioctl" entry)
      \/ unregistered (loadSubCmdHandlers SampleDir.require SampleDir.files) "ioctl").
Proof.
  exact (registry_lookup SampleDir.require SampleDir.files "ioctl" Sample.ioctl
           (proj2 plain_names) (sample_dir_not_listed "__proto__" (or_intror eq_refl))).
Defined.

Lemma unlisted_subcommand_not_implemented_witness :
  unregistered (loadSubCmdHandlers SampleDir.require SampleDir.files) "rename"
  /\ handle Sample.consts (loadSubCmdHandlers SampleDir.require SampleDir.files)
       Sample.msg 0xA0 (Sample.request 5) Sample.commandData 33 73 tt tt
     = returns [Callback {| Result.status := 0xC0000002;
                            Result.params := Sample.request 5;
                            Result.data := Sample.commandData;
                            Result.setup := None |}].
Proof.
  apply (unlisted_subcommand_not_implemented Sample.consts SampleDir.require
           SampleDir.files Sample.msg 0xA0 (Sample.request 5) Sample.commandData
           33 73 tt tt "rename" "nt_transact").
  - vm_compute; reflexivity.
  - vm_compute; reflexivity.
  - vm_compute; reflexivity.
  - exact (proj1 plain_names).
  - exact (sample_dir_not_listed "__proto__" (or_intror eq_refl)).
  - exact (sample_dir_not_listed "rename" (or_introl eq_refl)).
Defined.

Lemma listed_subcommand_dispatched_witness :
  let o := handle Sample.consts (loadSubCmdHandlers SampleDir.require SampleDir.files)
             Sample.msg 0xA0 (Sample.request 2) Sample.commandData 33 73 tt tt in
  let call := call_of Sample.msg (Sample.request 2) tt tt in
  invocations o = [("ioctl"%string, call)]
  /\ cb_results o
     = handler_callback Sample.consts (Sample.request 2) Sample.commandData
       <$> Sample.ioctl call
  /\ thrown o = None.
Proof.
  apply (listed_subcommand_dispatched Sample.consts SampleDir.require
           SampleDir.files Sample.msg 0xA0 (Sample.request 2) Sample.commandData
           33 73 tt tt "ioctl" "nt_transact"
           {| d_name := "ioctl.js"; d_isDirectory := false |}).
  - vm_compute; reflexivity.
  - vm_compute; reflexivity.
  - vm_compute; reflexivity.
  - unfold SampleDir.files. apply elem_of_cons. right. apply elem_of_cons. left. reflexivity.
  - split; reflexivity.
Defined.
